(** * GeoCroissant to OGC-TDML metadata conversion

    A shallow embedding of the two converters of the repository, both named
    [convert_geocroissant_to_tdml_manual]:

    - [Robust]: OGC-TDML to GeoCroissant Support/GeoCroissant to OGC-TDML/
      geocroissant_to_ogc-tdml_converter.py (the variant "with proper field
      handling": fallbacks, warnings, wrapped I/O errors);
    - [Plain]: OGC-TDML to GeoCroissant Support/
      geocroissant_to_ogc-tdml_converter.py (the short variant).

    Python values are the values [json.load] produces.  Numbers are the
    integers (a document with a non-integer number is outside the embedding),
    a string is a sequence of characters with code points below 256, and a
    dict is an association list in insertion order whose keys are pairwise
    distinct (a lookup reads the first binding).  Dynamic type errors are
    part of the behaviour and are kept: an operation the interpreter
    rejects raises the exception class the interpreter raises.

    The file has three parts: the embedding of the source, the vocabulary of
    the specification (definitions that follow its words), and the
    properties that relate the two. *)

From Stdlib Require Import String Ascii List ZArith Bool Arith Lia.
From Stdlib Require Import DecimalString DecimalNat DecimalZ.
Import ListNotations.
Local Open Scope string_scope.
Local Open Scope list_scope.

Set Implicit Arguments.

(** ** Python values *)

#[warnings="-register-all"]
Inductive json : Type :=
| JNull                                   (* None *)
| JBool (b : bool)
| JInt (z : Z)
| JStr (s : string)
| JArr (items : list json)
| JObj (members : list (string * json)).

(** ** Exceptions, outcomes and the output log *)

Inductive exn_class : Type :=
| FileNotFoundError
| JSONDecodeError     (* a subclass of ValueError *)
| ValueError
| IOError             (* alias of OSError *)
| AttributeError
| TypeError
| KeyError
| IndexError.

(** [exn_msg = None] stands for the interpreter's own message text. *)
Record exn : Type := Exn { exn_cls : exn_class; exn_msg : option string }.

(** What an expression or a statement ends in. *)
Inductive outcome (A : Type) : Type :=
| Ok (a : A)
| Raise (e : exn).

Arguments Ok {A} a.
Arguments Raise {A} e.

Definition fault {A} (c : exn_class) : outcome A := Raise (Exn c None).

Definition obind {A B} (m : outcome A) (f : A -> outcome B) : outcome B :=
  match m with
  | Ok a => f a
  | Raise e => Raise e
  end.

(** One element per [print] call, holding the values the call formats. *)
Inductive line : Type :=
| WarnFirstRecordSet (name : json)
| WarnNoClasses
| WarnNoBands
| WarnNoFileListing
| WarnNoPairs
| WarnSkip (i : nat)
| WarnMissingFields (fields : list string)
| InfoWritten (path : string)
| InfoDataset (name : json)
| InfoTotal (v : json)
| InfoTraining (v : json)
| InfoValidation (v : json)
| InfoClasses (n : nat)
| InfoBands (n : nat)
| InfoEntries (n : nat).

(** A computation that prints: the lines printed so far and the outcome. *)
Definition M (A : Type) : Type := (list line * outcome A)%type.

Definition ret {A} (a : A) : M A := ([], Ok a).

Definition bind {A B} (m : M A) (f : A -> M B) : M B :=
  match m with
  | (l, Ok a) => let (l', r) := f a in (l ++ l', r)
  | (l, Raise e) => (l, Raise e)
  end.

Definition lift {A} (o : outcome A) : M A := ([], o).
Definition print (x : line) : M unit := ([x], Ok tt).
Definition raise {A} (c : exn_class) (msg : string) : M A :=
  ([], Raise (Exn c (Some msg))).

Declare Scope py_scope.
Delimit Scope py_scope with py.
Notation "x <- m ;; k" := (bind m (fun x => k))
  (at level 61, m at next level, right associativity) : py_scope.
Notation "m ;;; k" := (bind m (fun _ => k))
  (at level 61, right associativity) : py_scope.
Notation "x <~ m ;; k" := (obind m (fun x => k))
  (at level 61, m at next level, right associativity) : py_scope.
Local Open Scope py_scope.

(** ** The interpreter's primitives *)

Module Py.

(** Truth value of an object ([if x], [not x], [x or y]). *)
Definition truthy (v : json) : bool :=
  match v with
  | JNull => false
  | JBool b => b
  | JInt z => negb (z =? 0)%Z
  | JStr s => negb (s =? "")%string
  | JArr l => match l with [] => false | _ => true end
  | JObj d => match d with [] => false | _ => true end
  end.

Definition or_ (a b : json) : json := if truthy a then a else b.

(** Dict lookup; the first binding of a key is the dict's entry. *)
Fixpoint lookup (d : list (string * json)) (k : string) : option json :=
  match d with
  | [] => None
  | (k', v) :: rest => if (k' =? k)%string then Some v else lookup rest k
  end.

(** [d.get(k, dflt)] on a dict. *)
Definition get_or (d : list (string * json)) (k : string) (dflt : json) : json :=
  match lookup d k with Some v => v | None => dflt end.

(** [v.get(k, dflt)] on any object: only a dict has [get]. *)
Definition get (v : json) (k : string) (dflt : json) : outcome json :=
  match v with
  | JObj d => Ok (get_or d k dflt)
  | _ => fault AttributeError
  end.

(** [k in d] on a dict. *)
Definition has_key (d : list (string * json)) (k : string) : bool :=
  match lookup d k with Some _ => true | None => false end.

(** [v == s] for a string literal [s]. *)
Definition eq_str (v : json) (s : string) : bool :=
  match v with JStr s' => (s' =? s)%string | _ => false end.

(** [needle in hay] on strings: substring test. *)
Fixpoint substring_of (needle hay : string) : bool :=
  prefix needle hay
  || match hay with
     | EmptyString => false
     | String _ rest => substring_of needle rest
     end.

(** [s in v] for a string literal [s]. *)
Definition contains (s : string) (v : json) : outcome bool :=
  match v with
  | JStr hay => Ok (substring_of s hay)
  | JArr l => Ok (existsb (fun x => eq_str x s) l)
  | JObj d => Ok (has_key d s)
  | _ => fault TypeError
  end.

(** [str.lower()] on code points below 256: A-Z and the Latin-1 capitals
    (0xC0-0xDE without the multiplication sign 0xD7) move up by 32. *)
Definition lower_char (c : ascii) : ascii :=
  let n := nat_of_ascii c in
  if (((65 <=? n) && (n <=? 90))
      || ((192 <=? n) && (n <=? 222) && negb (n =? 215)))%nat
  then ascii_of_nat (n + 32) else c.

Fixpoint lower (s : string) : string :=
  match s with
  | EmptyString => EmptyString
  | String c rest => String (lower_char c) (lower rest)
  end.

(** [v.lower()]: only a str has it. *)
Definition lower_of (v : json) : outcome string :=
  match v with
  | JStr s => Ok (lower s)
  | _ => fault AttributeError
  end.

(** [v.startswith(p)] for a dict key (always a str). *)
Definition startswith (s p : string) : bool := prefix p s.

(** [v.items()]: only a dict has it. *)
Definition items (v : json) : outcome (list (string * json)) :=
  match v with
  | JObj d => Ok d
  | _ => fault AttributeError
  end.

(** [v[k]] for a string literal [k]. *)
Definition subscript (v : json) (k : string) : outcome json :=
  match v with
  | JObj d => match lookup d k with Some x => Ok x | None => fault KeyError end
  | _ => fault TypeError
  end.

(** [v > 0]. *)
Definition gt0 (v : json) : outcome bool :=
  match v with
  | JInt z => Ok (0 <? z)%Z
  | JBool b => Ok b
  | _ => fault TypeError
  end.

Definition chars (s : string) : list json :=
  map (fun c => JStr (String c EmptyString)) (list_ascii_of_string s).

(** The elements a [for] loop (or [zip]) draws from an object. *)
Definition iter (v : json) : outcome (list json) :=
  match v with
  | JArr l => Ok l
  | JStr s => Ok (chars s)
  | JObj d => Ok (map (fun kv => JStr (fst kv)) d)
  | _ => fault TypeError
  end.

(** [len(v)]. *)
Definition len (v : json) : outcome nat :=
  match v with
  | JArr l => Ok (length l)
  | JStr s => Ok (String.length s)
  | JObj d => Ok (length d)
  | _ => fault TypeError
  end.

(** A number as the integer it compares and counts as ([bool] is a
    subclass of [int]). *)
Definition as_int (v : json) : option Z :=
  match v with
  | JInt z => Some z
  | JBool b => Some (if b then 1 else 0)%Z
  | _ => None
  end.

Definition int_of (v : json) : outcome Z :=
  match as_int v with Some z => Ok z | None => fault TypeError end.

(** [min(n, v)] for an integer literal or count [n]. *)
Definition min_with (n : Z) (v : json) : outcome Z :=
  match as_int v with Some z => Ok (Z.min n z) | None => fault TypeError end.

(** [a + b]. *)
Definition add (a b : json) : outcome json :=
  match a, b with
  | JArr x, JArr y => Ok (JArr (x ++ y))
  | JStr x, JStr y => Ok (JStr (x ++ y))
  | _, _ =>
      match as_int a, as_int b with
      | Some x, Some y => Ok (JInt (x + y))
      | _, _ => fault TypeError
      end
  end.

(** [v[i]] for an integer index [i >= 0]. *)
Definition getitem (v : json) (i : nat) : outcome json :=
  match v with
  | JArr l => match nth_error l i with Some x => Ok x | None => fault IndexError end
  | JStr s => match nth_error (chars s) i with Some x => Ok x | None => fault IndexError end
  | JObj _ => fault KeyError      (* a JSON dict has str keys only *)
  | _ => fault TypeError
  end.

Definition str_of_nat (n : nat) : string := NilZero.string_of_uint (Nat.to_uint n).
Definition str_of_Z (z : Z) : string := NilZero.string_of_int (Z.to_int z).

(** [repr(s)] of a str: single quotes unless the string holds one and no
    double quote; the quote and the backslash are escaped, the control
    characters and the unprintable Latin-1 characters are written in
    backslash notation. *)
Definition single_quote : ascii := ascii_of_nat 39.
Definition double_quote : ascii := ascii_of_nat 34.
Definition backslash : ascii := ascii_of_nat 92.

Definition hex_digit (n : nat) : ascii :=
  ascii_of_nat (if (n <? 10)%nat then 48 + n else 87 + n).

Definition escape (quote c : ascii) : string :=
  let n := nat_of_ascii c in
  if ((c =? quote)%char || (n =? 92)%nat)%bool then String backslash (String c "")
  else if (n =? 9)%nat then String backslash "t"
  else if (n =? 10)%nat then String backslash "n"
  else if (n =? 13)%nat then String backslash "r"
  else if ((n <? 32) || (n =? 127) || ((128 <=? n) && (n <=? 160)) || (n =? 173))%nat
  then String backslash
         (String "x" (String (hex_digit (n / 16)) (String (hex_digit (n mod 16)) "")))
  else String c "".

Definition has_char (c : ascii) (s : string) : bool :=
  existsb (fun c' => (c' =? c)%char) (list_ascii_of_string s).

Definition repr_str (s : string) : string :=
  let quote :=
    if has_char single_quote s && negb (has_char double_quote s)
    then double_quote else single_quote in
  String quote
         (String.concat "" (map (escape quote) (list_ascii_of_string s))
          ++ String quote "")%string.

(** [repr(v)]. *)
Fixpoint repr (v : json) : string :=
  match v with
  | JNull => "None"
  | JBool b => if b then "True" else "False"
  | JInt z => str_of_Z z
  | JStr s => repr_str s
  | JArr l => ("[" ++ String.concat ", " (map repr l) ++ "]")%string
  | JObj d =>
      ("{" ++ String.concat ", "
                (map (fun kv => (repr_str (fst kv) ++ ": " ++ repr (snd kv))%string) d)
           ++ "}")%string
  end.

(** [str(v)] as an f-string field formats it. *)
Definition str (v : json) : string :=
  match v with
  | JStr s => s
  | _ => repr v
  end.

End Py.

(** ** The file system the converters read and write *)

Inductive content : Type :=
| Document (doc : json)       (* bytes that parse as this value *)
| Malformed (err : string).   (* bytes json.load rejects, with its message *)

Record world : Type := World {
  files : list (string * content);
  unwritable : list (string * string)   (* path, the OS error opening it for writing *)
}.

Fixpoint assoc {A} (l : list (string * A)) (k : string) : option A :=
  match l with
  | [] => None
  | (k', v) :: rest => if (k' =? k)%string then Some v else assoc rest k
  end.

Fixpoint store {A} (l : list (string * A)) (k : string) (v : A) : list (string * A) :=
  match l with
  | [] => [(k, v)]
  | (k', v') :: rest =>
      if (k' =? k)%string then (k, v) :: rest else (k', v') :: store rest k v
  end.

(** [open(path, 'w')] followed by [json.dump]. *)
Definition write_json (w : world) (path : string) (v : json) : world + string :=
  match assoc (unwritable w) path with
  | Some err => inr err
  | None => inl (World (store (files w) path (Document v)) (unwritable w))
  end.

(** ** The converter with fallbacks (GeoCroissant to OGC-TDML/) *)

Module Robust.

Import Py.

(** Lines 111-125: the names of the creators. *)
Definition provider_of_dict (creator : list (string * json)) : list json :=
  let provider_name := get_or creator "name" (JStr "") in
  if truthy provider_name then [provider_name] else [].

Definition providers_of (creators : json) : list json :=
  match creators with
  | JArr l =>
      flat_map (fun creator =>
                  match creator with
                  | JObj d => provider_of_dict d
                  | JStr _ => [creator]
                  | _ => []
                  end) l
  | JObj d => provider_of_dict d
  | _ => []
  end.

(** Line 147: the test of the record-set loop. *)
Definition is_main (rs : json) : outcome bool :=
  name <~ get rs "name" JNull ;;
  if eq_str name "hls_burn_scars" then Ok true
  else
    name <~ get rs "name" (JStr "") ;;
    lowered <~ lower_of name ;;
    Ok (substring_of "hls" lowered).

(** Lines 146-149: the loop; [JNull] when it ends without [break]. *)
Fixpoint find_main (record_sets : list json) : outcome json :=
  match record_sets with
  | [] => Ok JNull
  | rs :: rest =>
      hit <~ is_main rs ;;
      if hit then Ok rs else find_main rest
  end.

Definition no_record_set : string :=
  "Could not find any recordSet in the GeoCroissant data".

(** Lines 142-156. *)
Definition select_main_record_set (record_sets : json) : M json :=
  items <- lift (iter record_sets) ;;
  main_record_set <- lift (find_main items) ;;
  main_record_set <-
    (if negb (truthy main_record_set) && truthy record_sets then
       first <- lift (getitem record_sets 0) ;;
       shown <- lift (get first "name" (JStr "unknown")) ;;
       print (WarnFirstRecordSet shown) ;;;
       ret first
     else ret main_record_set) ;;
  if negb (truthy main_record_set) then raise ValueError no_record_set
  else ret main_record_set.

(** Lines 176-181. *)
Definition band_dict (band_name wavelength hls_band : json) : json :=
  JObj [("name", band_name);
        ("description", JStr (str band_name ++ " band (" ++ str hls_band ++ ")"));
        ("wavelength", wavelength);
        ("hlsBand", hls_band)].

(** Lines 170-182: the loop over [band_config.items()]. *)
Fixpoint bands_loop (items : list (string * json)) (bands : list json)
  : outcome (list json) :=
  match items with
  | [] => Ok bands
  | (band_key, band_info) :: rest =>
      if startswith band_key "band" then
        band_name <~ get band_info "name" (JStr ("Band " ++ band_key)) ;;
        wavelength <~ get band_info "wavelength" (JStr "") ;;
        hls_band <~ get band_info "hlsBand" (JStr "") ;;
        let b := band_dict band_name wavelength hls_band in
        bands_loop rest (bands ++ [b])
      else bands_loop rest bands
  end.

(** Lines 166-182. *)
Definition extract_bands (doc : list (string * json)) : outcome (list json) :=
  let sensor_characteristics := get_or doc "geocr:sensorCharacteristics" (JArr []) in
  if truthy sensor_characteristics then
    n <~ len sensor_characteristics ;;
    if (0 <? n)%nat then
      first <~ getitem sensor_characteristics 0 ;;
      band_config <~ get first "bandConfiguration" (JObj []) ;;
      if truthy band_config then
        items <~ items band_config ;;
        bands_loop items []
      else Ok []
    else Ok []
  else Ok [].

(** Lines 190-194. *)
Definition class_mapping : list (string * json) :=
  [("NotBurned", JStr "0"); ("BurnScar", JStr "1"); ("NoData", JStr "-1")].

(** Line 196: [class_mapping.get(class_name, str(len(classes)))]; a list
    or dict is not hashable. *)
Definition class_key (count : nat) (class_name : json) : outcome json :=
  match class_name with
  | JStr s => Ok (get_or class_mapping s (JStr (str_of_nat count)))
  | JArr _ | JObj _ => fault TypeError
  | _ => Ok (JStr (str_of_nat count))
  end.

(** Lines 195-201. *)
Fixpoint classes_loop (class_list : list json) (classes : list json)
  : outcome (list json) :=
  match class_list with
  | [] => Ok classes
  | class_name :: rest =>
      k <~ class_key (length classes) class_name ;;
      classes_loop rest (classes ++ [JObj [("key", k); ("value", class_name)]])
  end.

(** Lines 185-201. *)
Definition extract_classes (doc : list (string * json)) : outcome (list json) :=
  let ml_task := get_or doc "geocr:mlTask" (JObj []) in
  if truthy ml_task then
    present <~ contains "classes" ml_task ;;
    if present then
      class_list <~ subscript ml_task "classes" ;;
      match class_list with
      | JArr l => classes_loop l []
      | _ => Ok []
      end
    else Ok []
  else Ok [].

(** Lines 205-209 and 214-221. *)
Definition default_classes : list json :=
  [JObj [("key", JStr "0"); ("value", JStr "NotBurned")];
   JObj [("key", JStr "1"); ("value", JStr "BurnScar")];
   JObj [("key", JStr "-1"); ("value", JStr "NoData")]].

Definition default_band (name wavelength hls : string) : json :=
  JObj [("name", JStr name);
        ("description", JStr (name ++ " band (" ++ hls ++ ")"));
        ("wavelength", JStr wavelength);
        ("hlsBand", JStr hls)].

Definition default_bands : list json :=
  [default_band "Blue" "490nm" "B02";
   default_band "Green" "560nm" "B03";
   default_band "Red" "665nm" "B04";
   default_band "NIR" "865nm" "B8A";
   default_band "SW1" "1610nm" "B11";
   default_band "SW2" "2190nm" "B12"].

(** Lines 231-239. *)
Definition tasks : list json :=
  [JObj [("type", JStr "EOTask");
         ("id", JStr "task_0");
         ("name", JStr "Burn Scar Segmentation");
         ("description",
          JStr "Semantic segmentation of burn scars in satellite imagery using HLS data.");
         ("inputType", JStr "image");
         ("outputType", JStr "mask");
         ("taskType", JStr "segmentation")]].

(** Lines 282-292. *)
Definition data_entry (i : nat) (img_url mask_url : json) : json :=
  JObj [("type", JStr "EOTrainingData");
        ("id", JStr ("data_" ++ str_of_nat i));
        ("dataUrl", JArr [img_url]);
        ("labels",
         JArr [JObj [("type", JStr "PixelLabel");
                     ("imageUrl", JArr [mask_url]);
                     ("imageFormat", JArr [JStr "image/tiff"]);
                     ("class", JStr "")]])].

(** Lines 273-293: [n] iterations of the [range] loop are left, the next
    index is [i]. *)
Fixpoint data_loop (all_images all_annotations : json) (n i : nat)
    (data : list json) : M (list json) :=
  match n with
  | O => ret data
  | S n' =>
      img_url <- lift (getitem all_images i) ;;
      mask_url <- lift (getitem all_annotations i) ;;
      if negb (truthy img_url) || negb (truthy mask_url) then
        print (WarnSkip i) ;;;
        data_loop all_images all_annotations n' (S i) data
      else
        data_loop all_images all_annotations n' (S i)
                  (data ++ [data_entry i img_url mask_url])
  end.

(** Lines 242-293. *)
Definition extract_data (doc : list (string * json)) (total_samples : json)
  : M (list json) :=
  let file_listing := get_or doc "geocr:fileListing" (JObj []) in
  if negb (truthy file_listing) then
    print WarnNoFileListing ;;; ret []
  else
    images <- lift (get file_listing "images" (JObj [])) ;;
    annotations <- lift (get file_listing "annotations" (JObj [])) ;;
    train_images <- lift (get images "train" (JArr [])) ;;
    train_annotations <- lift (get annotations "train" (JArr [])) ;;
    val_images <- lift (get images "val" (JArr [])) ;;
    val_annotations <- lift (get annotations "val" (JArr [])) ;;
    all_images <- lift (add train_images val_images) ;;
    all_annotations <- lift (add train_annotations val_annotations) ;;
    n_images <- lift (len all_images) ;;
    n_annotations <- lift (len all_annotations) ;;
    let min_pairs := Nat.min n_images n_annotations in
    if (min_pairs =? 0)%nat then
      print WarnNoPairs ;;; ret []
    else
      positive <- lift (gt0 total_samples) ;;
      max_samples <- lift (if positive then min_with 50 total_samples
                           else Ok (Z.min 50 (Z.of_nat min_pairs))) ;;
      data_loop all_images all_annotations
                (Z.to_nat (Z.min max_samples (Z.of_nat min_pairs))) 0 [].

Definition required_fields : list string :=
  ["type"; "id"; "name"; "description"; "license"; "providers"; "createdTime";
   "updatedTime"; "version"; "tasks"; "classes"; "bands"; "data"].

(** Line 98. *)
Definition identifier_of (doc : list (string * json)) : json :=
  or_ (or_ (get_or doc "@id" (JStr "")) (get_or doc "id" (JStr "")))
      (JStr "hls_burn_scars_dataset").

(** Line 99. *)
Definition name_of (doc : list (string * json)) : json :=
  get_or doc "name" (JStr "HLS_Burn_Scars").

(** Lines 100-102. *)
Definition description_of (doc : list (string * json)) : json :=
  let description := get_or doc "description" (JStr "") in
  if truthy description then description else JStr "No description provided.".

(** Lines 105-109. *)
Definition license_of (doc : list (string * json)) : json :=
  let license_ := get_or doc "license" (JStr "") in
  let license_ :=
    match license_ with
    | JArr [] => JStr ""
    | JArr (x :: _) => x
    | _ => license_
    end in
  if truthy license_ then license_
  else JStr "https://creativecommons.org/licenses/by/4.0/".

(** Lines 112-129. *)
Definition providers_or_default (doc : list (string * json)) : list json :=
  match providers_of (get_or doc "creator" (JArr [])) with
  | [] => [JStr "IBM-NASA Prithvi Models Family"]
  | providers => providers
  end.

(** Lines 132-137. *)
Definition time_of (doc : list (string * json)) (k k' : string) : json :=
  let t := or_ (get_or doc k (JStr "")) (get_or doc k' (JStr "")) in
  if truthy t then t else JStr "2025-01-17T00:00:00Z".

(** Line 139. *)
Definition version_of (doc : list (string * json)) : json :=
  get_or doc "version" (JStr "1.0.0").

(** Lines 296-317. *)
Definition structure (doc : list (string * json))
    (classes bands data : list json)
    (total_samples training_samples validation_samples : json)
  : list (string * json) :=
  [("type", JStr "EOTrainingDataset");
   ("id", identifier_of doc);
   ("name", name_of doc);
   ("description", description_of doc);
   ("license", license_of doc);
   ("providers", JArr (providers_or_default doc));
   ("createdTime", time_of doc "dateCreated" "created_time");
   ("updatedTime", time_of doc "dateModified" "updated_time");
   ("version", version_of doc);
   ("tasks", JArr tasks);
   ("classes", JArr classes);
   ("bands", JArr bands);
   ("data", JArr data);
   ("amountOfTrainingData", JInt (Z.of_nat (length data)));
   ("numberOfClasses", JInt (Z.of_nat (length classes)));
   ("dataStatistics",
    JObj [("totalSamples", total_samples);
          ("trainingSamples", training_samples);
          ("validationSamples", validation_samples)])].

(** Lines 320-324. *)
Definition check_required (tdml_structure : list (string * json)) : M unit :=
  let missing_fields :=
    filter (fun field => negb (truthy (get_or tdml_structure field JNull)))
           required_fields in
  match missing_fields with
  | [] => ret tt
  | _ => print (WarnMissingFields missing_fields)
  end.

(** Lines 204-210 and 213-222. *)
Definition classes_or_default (classes : list json) : M (list json) :=
  match classes with
  | [] => print WarnNoClasses ;;; ret default_classes
  | _ => ret classes
  end.

Definition bands_or_default (bands : list json) : M (list json) :=
  match bands with
  | [] => print WarnNoBands ;;; ret default_bands
  | _ => ret bands
  end.

(** Line 225. *)
Definition data_stats_of (doc : list (string * json)) : json :=
  get_or doc "geocr:dataStatistics" (JObj []).

(** The local variables the function still uses after the structure is built. *)
Record locals : Type := Locals {
  tdml_structure : json;
  name : json;
  total_samples : json;
  training_samples : json;
  validation_samples : json;
  classes : list json;
  bands : list json;
  data : list json
}.

(** Lines 97-324: everything between loading the source and writing the
    target. *)
Definition remap (croissant_data : json) : M locals :=
  match croissant_data with
  | JObj doc =>
      let record_sets := get_or doc "recordSet" (JArr []) in
      main_record_set <- select_main_record_set record_sets ;;
      fields <- lift (get main_record_set "field" (JArr [])) ;;
      bands <- lift (extract_bands doc) ;;
      classes <- lift (extract_classes doc) ;;
      classes <- classes_or_default classes ;;
      bands <- bands_or_default bands ;;
      let data_stats := data_stats_of doc in
      total_samples <- lift (get data_stats "totalSamples" (JInt 0)) ;;
      training_samples <- lift (get data_stats "trainingSamples" (JInt 0)) ;;
      validation_samples <- lift (get data_stats "validationSamples" (JInt 0)) ;;
      data <- extract_data doc total_samples ;;
      let tdml_structure :=
        structure doc classes bands data
                  total_samples training_samples validation_samples in
      check_required tdml_structure ;;;
      ret (Locals (JObj tdml_structure) (name_of doc) total_samples training_samples
                  validation_samples classes bands data)
  | _ => lift (fault AttributeError)   (* line 98: no [get] *)
  end.

(** Lines 88-95. *)
Definition load (w : world) (geocroissant_path : string) : M json :=
  match assoc (files w) geocroissant_path with
  | None =>
      raise FileNotFoundError ("GeoCroissant file not found: " ++ geocroissant_path)
  | Some (Malformed e) =>
      raise ValueError ("Invalid JSON in GeoCroissant file: " ++ e)
  | Some (Document croissant_data) => ret croissant_data
  end.

(** Lines 84-341. *)
Definition convert_geocroissant_to_tdml_manual
    (w : world) (geocroissant_path tdml_output_path : string)
  : world * M unit :=
  let (out, r) := croissant_data <- load w geocroissant_path ;; remap croissant_data in
  match r with
  | Ok v =>
      match write_json w tdml_output_path (tdml_structure v) with
      | inl w' =>
          (w', (out ++ [InfoWritten tdml_output_path;
                        InfoDataset (name v);
                        InfoTotal (total_samples v);
                        InfoTraining (training_samples v);
                        InfoValidation (validation_samples v);
                        InfoClasses (length (classes v));
                        InfoBands (length (bands v));
                        InfoEntries (length (data v))],
                Ok tt))
      | inr e =>
          (w, (out, Raise (Exn IOError (Some ("Failed to write TDML file: " ++ e)%string))))
      end
  | Raise e => (w, (out, Raise e))
  end.

End Robust.

(** ** The short converter (OGC-TDML to GeoCroissant Support/) *)

Module Plain.

Import Py.

(** Lines 24-38: the same creator handling as the other converter. *)
Definition providers_of : json -> list json := Robust.providers_of.

Definition no_main_record_set : string :=
  "Could not find main recordSet 'hls_burn_scars'".

(** Lines 53-56: the loop; [JNull] when it ends without [break]. *)
Fixpoint find_main (record_sets : list json) : outcome json :=
  match record_sets with
  | [] => Ok JNull
  | rs :: rest =>
      name <~ get rs "name" JNull ;;
      if eq_str name "hls_burn_scars" then Ok rs else find_main rest
  end.

(** Lines 51-59. *)
Definition select_main_record_set (record_sets : json) : M json :=
  items <- lift (iter record_sets) ;;
  main_record_set <- lift (find_main items) ;;
  if negb (truthy main_record_set) then raise ValueError no_main_record_set
  else ret main_record_set.

(** Lines 84-89. *)
Definition band_dict (band_name wavelength hls_band : json) : json :=
  Robust.band_dict band_name wavelength hls_band.

(** Lines 76-90: [n] iterations of [range(1, total_bands + 1)] are left,
    the next index is [i]. *)
Fixpoint bands_loop (band_config : list (string * json)) (n i : nat)
    (bands : list json) : outcome (list json) :=
  match n with
  | O => Ok bands
  | S n' =>
      let band_key := ("band" ++ str_of_nat i)%string in
      if has_key band_config band_key then
        band_info <~ subscript (JObj band_config) band_key ;;
        band_name <~ get band_info "name" (JStr ("Band " ++ str_of_nat i)) ;;
        wavelength <~ get band_info "wavelength" (JStr "") ;;
        hls_band <~ get band_info "hlsBand" (JStr "") ;;
        let b := band_dict band_name wavelength hls_band in
        bands_loop band_config n' (S i) (bands ++ [b])
      else bands_loop band_config n' (S i) bands
  end.

(** Lines 72-90: the band part of one field. *)
Definition field_bands (field : list (string * json)) (field_name : json)
    (bands : list json) : outcome (list json) :=
  is_image <~ contains "image" field_name ;;
  if is_image && has_key field "geocr:bandConfiguration" then
    band_config <~ subscript (JObj field) "geocr:bandConfiguration" ;;
    total_bands <~ get band_config "totalBands" (JInt 0) ;;
    total <~ int_of total_bands ;;
    match band_config with
    | JObj d => bands_loop d (Z.to_nat total) 1 bands
    | _ => fault AttributeError
    end
  else Ok bands.

(** Lines 95-100. *)
Definition class_entries (class_values : list (string * json)) : list json :=
  map (fun kv => JObj [("key", JStr (fst kv)); ("value", snd kv)]) class_values.

(** Lines 93-100: the class part of one field. *)
Definition field_classes (field : list (string * json)) (field_name : json)
    (classes : list json) : outcome (list json) :=
  is_annotation <~ contains "annotation" field_name ;;
  if is_annotation && has_key field "geocr:classValues" then
    class_values <~ subscript (JObj field) "geocr:classValues" ;;
    entries <~ items class_values ;;
    Ok (classes ++ class_entries entries)
  else Ok classes.

(** Lines 68-100: the loop over the fields of the main record set. *)
Fixpoint fields_loop (fields : list json) (bands classes : list json)
  : outcome (list json * list json) :=
  match fields with
  | [] => Ok (bands, classes)
  | field :: rest =>
      field_name <~ get field "name" (JStr "") ;;
      match field with
      | JObj d =>
          bands <~ field_bands d field_name bands ;;
          classes <~ field_classes d field_name classes ;;
          fields_loop rest bands classes
      | _ => fault AttributeError
      end
  end.

(** Lines 109-117. *)
Definition tasks : list json :=
  [JObj [("type", JStr "AI_EOTask");
         ("id", JStr "task_0");
         ("name", JStr "Burn Scar Segmentation");
         ("description",
          JStr "Semantic segmentation of burn scars in satellite imagery using HLS data.");
         ("inputType", JStr "image");
         ("outputType", JStr "mask");
         ("taskType", JStr "segmentation")]].

(** Lines 144-154. *)
Definition data_entry (i : nat) (img_url mask_url : json) : json :=
  JObj [("type", JStr "AI_EOTrainingData");
        ("id", JStr ("data_" ++ str_of_nat i));
        ("dataUrl", JArr [img_url]);
        ("labels",
         JArr [JObj [("type", JStr "AI_PixelLabel");
                     ("imageUrl", JArr [mask_url]);
                     ("imageFormat", JArr [JStr "image/tiff"]);
                     ("class", JStr "")]])].

(** Lines 138-155: the loop over [enumerate(zip(...))]; [i] counts the
    pairs already drawn. *)
Fixpoint data_loop (train_images total_samples : json)
    (pairs : list (json * json)) (i : nat) (data : list json)
  : outcome (list json) :=
  match pairs with
  | [] => Ok data
  | (img_url, mask_url) :: rest =>
      limit <~ min_with 50 total_samples ;;
      if (limit <=? Z.of_nat i)%Z then Ok data
      else
        n_train <~ len train_images ;;
        let split := if (i <? n_train)%nat then "training" else "validation" in
        data_loop train_images total_samples rest (S i)
                  (data ++ [data_entry i img_url mask_url])
  end.

(** Lines 120-155. *)
Definition extract_data (doc : list (string * json)) (total_samples : json)
  : outcome (list json) :=
  let file_listing := get_or doc "geocr:fileListing" (JObj []) in
  images <~ get file_listing "images" (JObj []) ;;
  annotations <~ get file_listing "annotations" (JObj []) ;;
  train_images <~ get images "train" (JArr []) ;;
  train_annotations <~ get annotations "train" (JArr []) ;;
  val_images <~ get images "val" (JArr []) ;;
  val_annotations <~ get annotations "val" (JArr []) ;;
  all_images <~ add train_images val_images ;;
  all_annotations <~ add train_annotations val_annotations ;;
  xs <~ iter all_images ;;
  ys <~ iter all_annotations ;;
  data_loop train_images total_samples (combine xs ys) 0 [].

(** Line 13. *)
Definition identifier_of (doc : list (string * json)) : json :=
  or_ (or_ (get_or doc "@id" (JStr "")) (get_or doc "id" (JStr "")))
      (JStr "hls_burn_scars_dataset").

(** Line 14. *)
Definition name_of (doc : list (string * json)) : json :=
  get_or doc "name" (JStr "").

(** Lines 15-17. *)
Definition description_of (doc : list (string * json)) : json :=
  let description := get_or doc "description" (JStr "") in
  if truthy description then description else JStr "No description provided.".

(** Lines 20-22. *)
Definition license_of (doc : list (string * json)) : json :=
  let license_ := get_or doc "license" (JStr "") in
  match license_ with
  | JArr [] => JStr ""
  | JArr (x :: _) => x
  | _ => license_
  end.

(** Lines 41-46. *)
Definition time_of (doc : list (string * json)) (k k' : string) : json :=
  let t := or_ (get_or doc k (JStr "")) (get_or doc k' (JStr "")) in
  if truthy t then t else JStr "2025-01-17T00:00:00Z".

(** Line 48. *)
Definition version_of (doc : list (string * json)) : json :=
  get_or doc "version" (JStr "1.0").

(** Lines 158-179. *)
Definition structure (doc : list (string * json))
    (classes bands data : list json)
    (total_samples training_samples validation_samples : json)
  : list (string * json) :=
  [("type", JStr "AI_EOTrainingDataset");
   ("id", identifier_of doc);
   ("name", name_of doc);
   ("description", description_of doc);
   ("license", license_of doc);
   ("providers", JArr (providers_of (get_or doc "creator" (JArr []))));
   ("createdTime", time_of doc "dateCreated" "created_time");
   ("updatedTime", time_of doc "dateModified" "updated_time");
   ("version", version_of doc);
   ("tasks", JArr tasks);
   ("classes", JArr classes);
   ("bands", JArr bands);
   ("data", JArr data);
   ("amountOfTrainingData", JInt (Z.of_nat (length data)));
   ("numberOfClasses", JInt (Z.of_nat (length classes)));
   ("dataStatistics",
    JObj [("totalSamples", total_samples);
          ("trainingSamples", training_samples);
          ("validationSamples", validation_samples)])].

(** Line 103. *)
Definition data_stats_of (doc : list (string * json)) : json :=
  get_or doc "geocr:dataStatistics" (JObj []).

Record locals : Type := Locals {
  tdml_structure : json;
  name : json;
  total_samples : json;
  classes : list json;
  bands : list json
}.

(** Lines 12-179: everything between loading the source and writing the
    target. *)
Definition remap (croissant_data : json) : M locals :=
  match croissant_data with
  | JObj doc =>
      let record_sets := get_or doc "recordSet" (JArr []) in
      main_record_set <- select_main_record_set record_sets ;;
      fields <- lift (get main_record_set "field" (JArr [])) ;;
      field_list <- lift (iter fields) ;;
      extracted <- lift (fields_loop field_list [] []) ;;
      let bands := fst extracted in
      let classes := snd extracted in
      let data_stats := data_stats_of doc in
      total_samples <- lift (get data_stats "totalSamples" (JInt 0)) ;;
      training_samples <- lift (get data_stats "trainingSamples" (JInt 0)) ;;
      validation_samples <- lift (get data_stats "validationSamples" (JInt 0)) ;;
      data <- lift (extract_data doc total_samples) ;;
      let tdml_structure :=
        structure doc classes bands data
                  total_samples training_samples validation_samples in
      ret (Locals (JObj tdml_structure) (name_of doc) total_samples classes bands)
  | _ => lift (fault AttributeError)   (* line 13: no [get] *)
  end.

(** Lines 9-10: the interpreter's own exceptions pass through. *)
Definition load (w : world) (geocroissant_path : string) : M json :=
  match assoc (files w) geocroissant_path with
  | None => lift (fault FileNotFoundError)
  | Some (Malformed e) => raise JSONDecodeError e
  | Some (Document croissant_data) => ret croissant_data
  end.

(** Lines 7-189. *)
Definition convert_geocroissant_to_tdml_manual
    (w : world) (geocroissant_path tdml_output_path : string)
  : world * M unit :=
  let (out, r) := croissant_data <- load w geocroissant_path ;; remap croissant_data in
  match r with
  | Ok v =>
      match write_json w tdml_output_path (tdml_structure v) with
      | inl w' =>
          (w', (out ++ [InfoWritten tdml_output_path;
                        InfoDataset (name v);
                        InfoTotal (total_samples v);
                        InfoClasses (length (classes v));
                        InfoBands (length (bands v))],
                Ok tt))
      | inr e => (w, (out, Raise (Exn IOError (Some e))))
      end
  | Raise e => (w, (out, Raise e))
  end.

End Plain.


(** ** The reader shipped with the converter with fallbacks (lines 9-72) *)

(** Lines 9-27.  An instance holds the attribute values after [__init__];
    the attribute [data] is assigned twice, the record holds the second
    value (line 26). *)
Module TrainingDataset.

Import Py.

Record t : Type := New {
  name : json;
  amount_of_training_data : json;
  number_of_classes : json;
  description : json;
  license : json;
  providers : json;
  created_time : json;
  updated_time : json;
  version : json;
  tasks : json;
  classes : json;
  bands : json;
  data : json;
  data_statistics : json
}.

Definition init (data : json) : outcome t :=
  name <~ get data "name" (JStr "") ;;
  amount_of_training_data <~ get data "amountOfTrainingData" (JInt 0) ;;
  number_of_classes <~ get data "numberOfClasses" (JInt 0) ;;
  description <~ get data "description" (JStr "") ;;
  license <~ get data "license" (JStr "") ;;
  providers <~ get data "providers" (JArr []) ;;
  created_time <~ get data "createdTime" (JStr "") ;;
  updated_time <~ get data "updatedTime" (JStr "") ;;
  version <~ get data "version" (JStr "") ;;
  tasks <~ get data "tasks" (JArr []) ;;
  classes <~ get data "classes" (JArr []) ;;
  bands <~ get data "bands" (JArr []) ;;
  data' <~ get data "data" (JArr []) ;;
  data_statistics <~ get data "dataStatistics" (JObj []) ;;
  Ok (New name amount_of_training_data number_of_classes description license
          providers created_time updated_time version tasks classes bands
          data' data_statistics).

End TrainingDataset.

(** Lines 29-36. *)
Module TrainingData.

Import Py.

Record t : Type := New {
  data : json;
  id : json;
  data_url : json;
  labels : json
}.

Definition init (data : json) : outcome t :=
  id <~ get data "id" (JStr "") ;;
  data_url <~ get data "dataUrl" (JArr []) ;;
  labels <~ get data "labels" (JArr []) ;;
  Ok (New data id data_url labels).

End TrainingData.

(** Lines 38-45. *)
Module PixelLabel.

Import Py.

Record t : Type := New {
  data : json;
  image_url : json;
  image_format : json;
  class_name : json
}.

Definition init (data : json) : outcome t :=
  image_url <~ get data "imageUrl" (JArr []) ;;
  image_format <~ get data "imageFormat" (JArr []) ;;
  class_name <~ get data "class" (JStr "") ;;
  Ok (New data image_url image_format class_name).

End PixelLabel.

(** Lines 47-57. *)
Module EOTask.

Import Py.

Record t : Type := New {
  data : json;
  id : json;
  name : json;
  description : json;
  input_type : json;
  output_type : json;
  task_type : json
}.

Definition init (data : json) : outcome t :=
  id <~ get data "id" (JStr "") ;;
  name <~ get data "name" (JStr "") ;;
  description <~ get data "description" (JStr "") ;;
  input_type <~ get data "inputType" (JStr "") ;;
  output_type <~ get data "outputType" (JStr "") ;;
  task_type <~ get data "taskType" (JStr "") ;;
  Ok (New data id name description input_type output_type task_type).

End EOTask.

(** Lines 59-72. *)
Module PytdmlIO.

(** The constructor call is inside the [try]; neither handler catches the
    [AttributeError] of a document that is not an object. *)
Definition read_from_json (w : world) (file_path : string)
  : outcome TrainingDataset.t :=
  match assoc (files w) file_path with
  | None => Raise (Exn FileNotFoundError (Some ("File not found: " ++ file_path)%string))
  | Some (Malformed e) =>
      Raise (Exn ValueError (Some ("Invalid JSON in file: " ++ e)%string))
  | Some (Document data) => TrainingDataset.init data
  end.

End PytdmlIO.

(** ** The file pairs of the local dataset (Introduction to Geocroissant/
    load_hls_dataset.py) *)

Module Loader.

(** [os.path.join(a, b)] on a POSIX system. *)
Definition ends_with_slash (a : string) : bool :=
  match rev (list_ascii_of_string a) with
  | c :: _ => (c =? "/")%char
  | [] => false
  end.

Definition join (a b : string) : string :=
  if prefix "/" b then b
  else if (a =? "")%string || ends_with_slash a then (a ++ b)%string
  else (a ++ "/" ++ b)%string.

(** [s.replace(old, new)] for a non-empty [old]: the occurrences of [old]
    are replaced from left to right, without overlap.  [skip] counts the
    characters of an occurrence still to be passed over. *)
Fixpoint replace_from (old new s : string) (skip : nat) : string :=
  match s with
  | EmptyString => EmptyString
  | String c rest =>
      match skip with
      | S k => replace_from old new rest k
      | O =>
          if prefix old s
          then (new ++ replace_from old new rest (String.length old - 1))%string
          else String c (replace_from old new rest 0)
      end
  end.

(** With an empty [old], [new] goes before every character and at the end. *)
Fixpoint interleave (new s : string) : string :=
  match s with
  | EmptyString => new
  | String c rest => (new ++ String c (interleave new rest))%string
  end.

Definition replace (old new s : string) : string :=
  match old with
  | EmptyString => interleave new s
  | _ => replace_from old new s 0
  end.

(** Line 11. *)
Definition dataset_path : string :=
  "/teamspace/studios/this_studio/ZOO-AI-DATASET-MAAS/Introduction to Geocroissant/hls_burn_scars".

(** Line 20. *)
Definition mask_file_of (img_file : string) : string :=
  replace "_merged.tif" ".mask.tif" img_file.

Section FileSystem.

(** What [glob] returns for a pattern, and which paths [os.path.exists]
    accepts. *)
Variable glob : string -> list string.
Variable path_exists : string -> bool.

(** Lines 13-27. *)
Definition get_file_pairs (split : string) : list json :=
  let split_path := join dataset_path split in
  let image_files := glob (join split_path "*_merged.tif") in
  flat_map (fun img_file =>
              let mask_file := mask_file_of img_file in
              if path_exists mask_file
              then [JObj [("image", JStr img_file); ("annotation", JStr mask_file)]]
              else [])
           image_files.

End FileSystem.

End Loader.

(** * The vocabulary of the specification *)

(** ** Reading documents back *)

(** A member of a JSON object. *)
Definition field (v : json) (k : string) : option json :=
  match v with
  | JObj d => Py.lookup d k
  | _ => None
  end.

(** The document a path holds. *)
Definition written (w : world) (path : string) : option json :=
  match assoc (files w) path with
  | Some (Document v) => Some v
  | _ => None
  end.

(** P2: the derived counts agree with the sequences they count. *)
Definition count_invariants (tdml : json) : Prop :=
  exists data classes,
    field tdml "data" = Some (JArr data)
    /\ field tdml "classes" = Some (JArr classes)
    /\ field tdml "amountOfTrainingData" = Some (JInt (Z.of_nat (length data)))
    /\ field tdml "numberOfClasses" = Some (JInt (Z.of_nat (length classes))).

(** ** The two converters side by side *)

Inductive converter : Type := robust | plain.

Definition run (c : converter) (w : world) (src dst : string) : world * M unit :=
  match c with
  | robust => Robust.convert_geocroissant_to_tdml_manual w src dst
  | plain => Plain.convert_geocroissant_to_tdml_manual w src dst
  end.

(** The target document a converter assembles for a source document. *)
Definition target (c : converter) (source : json) : M json :=
  match c with
  | robust => v <- Robust.remap source ;; ret (Robust.tdml_structure v)
  | plain => v <- Plain.remap source ;; ret (Plain.tdml_structure v)
  end.

(** The literal each converter passes as the default of [name]. *)
Definition default_name (c : converter) : string :=
  match c with
  | robust => "HLS_Burn_Scars"
  | plain => ""
  end.

(** The name rule: the source's value whenever the key is there. *)
Definition name_rule (c : converter) (source : json) : json :=
  match field source "name" with
  | Some x => x
  | None => JStr (default_name c)
  end.

(** The description rule: the fallback for an absent or empty value. *)
Definition description_rule (source : json) : json :=
  match field source "description" with
  | Some x => if Py.truthy x then x else JStr "No description provided."
  | None => JStr "No description provided."
  end.

(** The outcome of a run, without the world and the printed lines. *)
Definition outcome_of (r : world * M unit) : outcome unit := snd (snd r).

(** ** The file listing and the statistics, as the specification names them *)

(** The elements of a sequence value, in iteration order. *)
Definition elements (v : json) : list json :=
  match Py.iter v with
  | Ok l => l
  | _ => []
  end.

(** One side of the file listing ("images" or "annotations"): the train
    sequence followed by the val sequence. *)
Definition listing_side (source : json) (side : string) : outcome json :=
  match source with
  | JObj doc =>
      let file_listing := Py.get_or doc "geocr:fileListing" (JObj []) in
      of_side <~ Py.get file_listing side (JObj []) ;;
      train <~ Py.get of_side "train" (JArr []) ;;
      val <~ Py.get of_side "val" (JArr []) ;;
      Py.add train val
  | _ => fault AttributeError
  end.

Definition all_images (source : json) : list json :=
  match listing_side source "images" with
  | Ok v => elements v
  | _ => []
  end.

Definition all_annotations (source : json) : list json :=
  match listing_side source "annotations" with
  | Ok v => elements v
  | _ => []
  end.

(** Valid pair count: min(len(images), len(annotations)). *)
Definition min_pairs (source : json) : nat :=
  Nat.min (length (all_images source)) (length (all_annotations source)).

(** [geocr:dataStatistics.totalSamples], 0 when it is not set. *)
Definition total_samples (source : json) : json :=
  match source with
  | JObj doc =>
      let data_stats := Py.get_or doc "geocr:dataStatistics" (JObj []) in
      match Py.get data_stats "totalSamples" (JInt 0) with
      | Ok t => t
      | _ => JInt 0
      end
  | _ => JInt 0
  end.

(** P3, the cap law, for [n] emitted entries. *)
Definition within_cap (source : json) (n : nat) : Prop :=
  match Py.as_int (total_samples source) with
  | Some t =>
      if (0 <? t)%Z then (Z.of_nat n <= Z.min 50 t)%Z
      else n <= Nat.min 50 (min_pairs source)
  | None => n <= Nat.min 50 (min_pairs source)
  end.

(** ** The data entries, pair by pair *)

(** The URL check of line 278, as the condition under which a pair is kept. *)
Definition usable (img_url mask_url : json) : bool :=
  Py.truthy img_url && Py.truthy mask_url.

(** The entries and the warning pair [i] contributes with fallbacks. *)
Definition robust_step (imgs anns : list json) (i : nat) : list json :=
  match nth_error imgs i, nth_error anns i with
  | Some img, Some mask =>
      if usable img mask then [Robust.data_entry i img mask] else []
  | _, _ => []
  end.

Definition robust_skip (imgs anns : list json) (i : nat) : list line :=
  match nth_error imgs i, nth_error anns i with
  | Some img, Some mask => if usable img mask then [] else [WarnSkip i]
  | _, _ => []
  end.

(** Lines 271 and 273: how many pairs the range loop visits. *)
Definition robust_cap (source : json) : nat :=
  let pairs := Z.of_nat (min_pairs source) in
  let max_samples :=
    match Py.as_int (total_samples source) with
    | Some t => if (0 <? t)%Z then Z.min 50 t else Z.min 50 pairs
    | None => Z.min 50 pairs
    end in
  Z.to_nat (Z.min max_samples pairs).

Definition robust_data (source : json) : list json :=
  flat_map (robust_step (all_images source) (all_annotations source))
           (seq 0 (robust_cap source)).

Definition robust_skips (source : json) : list line :=
  flat_map (robust_skip (all_images source) (all_annotations source))
           (seq 0 (robust_cap source)).

(** [enumerate(zip(...))] in the short converter: every pair drawn becomes
    an entry, there is no URL check. *)
Fixpoint plain_entries (i : nat) (pairs : list (json * json)) : list json :=
  match pairs with
  | [] => []
  | (img, mask) :: rest => Plain.data_entry i img mask :: plain_entries (S i) rest
  end.

(** Line 139: the index at which the short converter breaks out. *)
Definition plain_limit (source : json) : nat :=
  match Py.as_int (total_samples source) with
  | Some t => Z.to_nat (Z.min 50 t)
  | None => 0
  end.

Definition plain_data (source : json) : list json :=
  plain_entries 0 (firstn (plain_limit source)
                          (combine (all_images source) (all_annotations source))).

(** The data entries each converter emits for a source. *)
Definition emitted (c : converter) (source : json) : list json :=
  match c with
  | robust => robust_data source
  | plain => plain_data source
  end.

(** ** Reading data entries *)

(** The id [f"data_{i}"]. *)
Definition data_id (i : nat) : json := JStr ("data_" ++ Py.str_of_nat i).

Definition entry_id (e : json) : option json := field e "id".

Definition data_url (e : json) : option json := field e "dataUrl".

(** The [imageUrl] of the entry's label. *)
Definition label_image_url (e : json) : option json :=
  match field e "labels" with
  | Some (JArr (label :: _)) => field label "imageUrl"
  | _ => None
  end.

(** One split of one side of the source's file listing. *)
Definition listing_split (source : json) (side split : string) : option json :=
  match field source "geocr:fileListing" with
  | Some file_listing =>
      match field file_listing side with
      | Some of_side => field of_side split
      | None => None
      end
  | None => None
  end.

(** No [totalSamples] statistic is set. *)
Definition total_unset (source : json) : Prop :=
  forall stats, field source "geocr:dataStatistics" = Some stats ->
                field stats "totalSamples" = None.

(** The source of P5: train sequences of length 3, val sequences of
    length 2, every URL non-empty, no [totalSamples]. *)
Definition p5_shape (source : json) : Prop :=
  exists ti vi ta va,
    listing_split source "images" "train" = Some (JArr ti)
    /\ listing_split source "images" "val" = Some (JArr vi)
    /\ listing_split source "annotations" "train" = Some (JArr ta)
    /\ listing_split source "annotations" "val" = Some (JArr va)
    /\ length ti = 3 /\ length vi = 2 /\ length ta = 3 /\ length va = 2
    /\ Forall (fun url => Py.truthy url = true) (ti ++ vi ++ ta ++ va)
    /\ total_unset source.

(** The source of P6: the combined pair list with an empty image URL in
    the second pair, no [totalSamples]. *)
Definition p6_shape (source : json) : Prop :=
  all_images source = [JStr "a.tif"; JStr ""; JStr "c.tif"]
  /\ all_annotations source = [JStr "a.mask.tif"; JStr "b.mask.tif"; JStr "c.mask.tif"]
  /\ total_unset source.

(** The ids of the data entries of a target, in order. *)
Definition data_ids (tdml : json) : list (option json) :=
  match field tdml "data" with
  | Some (JArr data) => map entry_id data
  | _ => []
  end.

(** ** Record sets *)

(** A record-set entry neither test of the selection loop picks: an object
    whose name, when it has one, is a string other than "hls_burn_scars"
    with no "hls" in it in any case. *)
Definition unmarked (rs : json) : bool :=
  match rs with
  | JObj d =>
      match Py.lookup d "name" with
      | None => true
      | Some (JStr s) =>
          negb (s =? "hls_burn_scars")%string
          && negb (Py.substring_of "hls" (Py.lower s))
      | Some _ => false
      end
  | _ => false
  end.

(** The name the fallback warning shows for a record set. *)
Definition shown_name (rs : json) : json :=
  match rs with
  | JObj d => Py.get_or d "name" (JStr "unknown")
  | _ => JNull
  end.

(** The exception of line 156 of the converter with fallbacks. *)
Definition fatal_no_record_set : exn := Exn ValueError (Some Robust.no_record_set).

(** The exception of line 59 of the short converter. *)
Definition fatal_no_main_record_set : exn :=
  Exn ValueError (Some Plain.no_main_record_set).

(** The exception classes the interpreter raises for a dynamic type error. *)
Definition dynamic (c : exn_class) : bool :=
  match c with
  | AttributeError | TypeError | KeyError | IndexError => true
  | _ => false
  end.

(** An outcome that is a result or an interpreter fault, never an
    exception the converter raises itself. *)
Definition faulty {A} (o : outcome A) : Prop :=
  match o with
  | Raise (Exn c None) => dynamic c = true
  | Raise (Exn _ (Some _)) => False
  | Ok _ => True
  end.

(** ** The two band shapes and the two class shapes *)

(** Shape 1 of the bands: the object at
    [geocr:sensorCharacteristics[0].bandConfiguration]. *)
Definition top_level_config (source : json) : list (string * json) :=
  match field source "geocr:sensorCharacteristics" with
  | Some (JArr (JObj first :: _)) =>
      match Py.lookup first "bandConfiguration" with
      | Some (JObj config) => config
      | _ => []
      end
  | _ => []
  end.

(** Its keys starting with "band", in the iteration order of the object. *)
Definition top_level_band_items (source : json) : list (string * json) :=
  filter (fun kv => Py.startswith (fst kv) "band") (top_level_config source).

(** The descriptor of one such key. *)
Definition top_level_band (band_key : string) (band_info : json) : outcome json :=
  band_name <~ Py.get band_info "name" (JStr ("Band " ++ band_key)) ;;
  wavelength <~ Py.get band_info "wavelength" (JStr "") ;;
  hls_band <~ Py.get band_info "hlsBand" (JStr "") ;;
  Ok (Robust.band_dict band_name wavelength hls_band).

(** [s in v], false where the interpreter refuses the test. *)
Definition mentions (s : string) (v : json) : bool :=
  match Py.contains s v with
  | Ok b => b
  | _ => false
  end.

(** The first record set named "hls_burn_scars" and its fields. *)
Definition named_main (rs : json) : bool :=
  match field rs "name" with
  | Some name => Py.eq_str name "hls_burn_scars"
  | None => false
  end.

Definition main_record_set (source : json) : option json :=
  match field source "recordSet" with
  | Some record_sets => find named_main (elements record_sets)
  | None => None
  end.

Definition main_fields (source : json) : list json :=
  match main_record_set source with
  | Some rs =>
      match field rs "field" with
      | Some fields => elements fields
      | None => []
      end
  | None => []
  end.

(** Shape 2 of the bands: in a field whose name contains "image", the keys
    band1..bandN of [geocr:bandConfiguration], N being [totalBands], by
    numeric index. *)
Definition numbered_band_items (config : list (string * json)) : list (nat * json) :=
  match Py.as_int (Py.get_or config "totalBands" (JInt 0)) with
  | Some n =>
      flat_map (fun i =>
                  match Py.lookup config ("band" ++ Py.str_of_nat i) with
                  | Some band_info => [(i, band_info)]
                  | None => []
                  end)
               (seq 1 (Z.to_nat n))
  | None => []
  end.

Definition field_band_items (fld : json) : list (nat * json) :=
  match fld with
  | JObj d =>
      if mentions "image" (Py.get_or d "name" (JStr "")) then
        match Py.lookup d "geocr:bandConfiguration" with
        | Some (JObj config) => numbered_band_items config
        | _ => []
        end
      else []
  | _ => []
  end.

Definition record_set_band_items (source : json) : list (nat * json) :=
  flat_map field_band_items (main_fields source).

(** The descriptor of band number [i]. *)
Definition numbered_band (i : nat) (band_info : json) : outcome json :=
  band_name <~ Py.get band_info "name" (JStr ("Band " ++ Py.str_of_nat i)) ;;
  wavelength <~ Py.get band_info "wavelength" (JStr "") ;;
  hls_band <~ Py.get band_info "hlsBand" (JStr "") ;;
  Ok (Plain.band_dict band_name wavelength hls_band).

(** Shape 1 of the classes: the names at [geocr:mlTask.classes]. *)
Definition ml_task_classes (source : json) : list json :=
  match field source "geocr:mlTask" with
  | Some (JObj ml_task) =>
      match Py.lookup ml_task "classes" with
      | Some (JArr names) => names
      | _ => []
      end
  | _ => []
  end.

(** The fixed name-to-key table, and the key rule of the specification: the table
    for a recognized name, the string of the class count otherwise. *)
Definition recognized (class_name : json) : option string :=
  match class_name with
  | JStr s =>
      if ("NotBurned" =? s)%string then Some "0"
      else if ("BurnScar" =? s)%string then Some "1"
      else if ("NoData" =? s)%string then Some "-1"
      else None
  | _ => None
  end.

Definition class_key_rule (count : nat) (class_name : json) : string :=
  match recognized class_name with
  | Some key => key
  | None => Py.str_of_nat count
  end.

(** The keys the rule gives a list of names, the first at count [count]. *)
Fixpoint keys_from (count : nat) (names : list json) : list string :=
  match names with
  | [] => []
  | class_name :: rest => class_key_rule count class_name :: keys_from (S count) rest
  end.

Fixpoint class_entries_from (count : nat) (names : list json) : list json :=
  match names with
  | [] => []
  | class_name :: rest =>
      JObj [("key", JStr (class_key_rule count class_name)); ("value", class_name)]
      :: class_entries_from (S count) rest
  end.

(** Shape 2 of the classes: in a field whose name contains "annotation",
    the members of [geocr:classValues]. *)
Definition field_class_items (fld : json) : list (string * json) :=
  match fld with
  | JObj d =>
      if mentions "annotation" (Py.get_or d "name" (JStr "")) then
        match Py.lookup d "geocr:classValues" with
        | Some (JObj class_values) => class_values
        | _ => []
        end
      else []
  | _ => []
  end.

Definition record_set_class_items (source : json) : list (string * json) :=
  flat_map field_class_items (main_fields source).

(** The keys of a sequence of class entries. *)
Definition class_keys (classes : list json) : list (option json) :=
  map (fun entry => field entry "key") classes.

(** No recognized name occurs twice, and no unrecognized name stands at a
    position whose number is the table key of a name of the list. *)
Definition collision_free (names : list json) : Prop :=
  (forall i j n m k,
      nth_error names i = Some n -> nth_error names j = Some m ->
      recognized n = Some k -> recognized m = Some k -> i = j)
  /\ (forall i j n m,
        nth_error names i = Some n -> nth_error names j = Some m ->
        recognized n = None -> recognized m <> Some (Py.str_of_nat i)).

(** Name and HLS band of each band descriptor; value and key of each class. *)
Definition band_summary (bands : list json) : list (option json * option json) :=
  map (fun b => (field b "name", field b "hlsBand")) bands.

Definition class_summary (classes : list json) : list (option json * option json) :=
  map (fun c => (field c "value", field c "key")) classes.

Definition canonical_bands : list (option json * option json) :=
  [(Some (JStr "Blue"), Some (JStr "B02"));
   (Some (JStr "Green"), Some (JStr "B03"));
   (Some (JStr "Red"), Some (JStr "B04"));
   (Some (JStr "NIR"), Some (JStr "B8A"));
   (Some (JStr "SW1"), Some (JStr "B11"));
   (Some (JStr "SW2"), Some (JStr "B12"))].

Definition canonical_classes : list (option json * option json) :=
  [(Some (JStr "NotBurned"), Some (JStr "0"));
   (Some (JStr "BurnScar"), Some (JStr "1"));
   (Some (JStr "NoData"), Some (JStr "-1"))].

(** ** Sample documents *)

Definition urls (l : list string) : json := JArr (map JStr l).

(** A world holding one source document at [in.json]. *)
Definition disk (source : json) : world := World [("in.json", Document source)] [].

(** Converting the one document of such a world into [out.json]. *)
Definition converted (c : converter) (source : json) : world * M unit :=
  run c (disk source) "in.json" "out.json".

(** A source with an empty name and no description. *)
Definition doc_unnamed : json :=
  JObj [("name", JStr "");
        ("recordSet", JArr [JObj [("name", JStr "hls_burn_scars")]])].

(** A source whose record-set sequence is empty. *)
Definition doc_no_record_sets : json :=
  JObj [("name", JStr "hls"); ("recordSet", JArr [])].

(** P5: train sequences of length 3, val sequences of length 2, no
    statistics. *)
Definition doc_pairs : json :=
  JObj [("name", JStr "HLS Burn Scars");
        ("recordSet", JArr [JObj [("name", JStr "hls_burn_scars")]]);
        ("geocr:fileListing",
         JObj [("images",
                JObj [("train", urls ["t0.tif"; "t1.tif"; "t2.tif"]);
                      ("val", urls ["v0.tif"; "v1.tif"])]);
               ("annotations",
                JObj [("train", urls ["t0.mask.tif"; "t1.mask.tif"; "t2.mask.tif"]);
                      ("val", urls ["v0.mask.tif"; "v1.mask.tif"])])])].

(** P6 as a document, for both converters. *)
Definition doc_skip : json :=
  JObj [("name", JStr "HLS Burn Scars");
        ("recordSet", JArr [JObj [("name", JStr "hls_burn_scars")]]);
        ("geocr:fileListing",
         JObj [("images", JObj [("train", urls ["a.tif"; ""; "c.tif"])]);
               ("annotations",
                JObj [("train", urls ["a.mask.tif"; "b.mask.tif"; "c.mask.tif"])])])].

(** The same pair list with [totalSamples] set to the number of pairs. *)
Definition doc_skip_counted : json :=
  JObj [("name", JStr "HLS Burn Scars");
        ("recordSet", JArr [JObj [("name", JStr "hls_burn_scars")]]);
        ("geocr:dataStatistics", JObj [("totalSamples", JInt 3)]);
        ("geocr:fileListing",
         JObj [("images", JObj [("train", urls ["a.tif"; ""; "c.tif"])]);
               ("annotations",
                JObj [("train", urls ["a.mask.tif"; "b.mask.tif"; "c.mask.tif"])])])].

(** P7: no entry matches, the first one is [{"name": "other"}]. *)
Definition doc_fallback : json :=
  JObj [("name", JStr "Other dataset");
        ("recordSet", JArr [JObj [("name", JStr "other")]; JObj [("name", JStr "foo")]])].

(** A source with both band shapes: one band at the top level, another
    one in the image field of the main record set. *)
Definition doc_two_shapes : json :=
  JObj [("name", JStr "HLS Burn Scars");
        ("recordSet",
         JArr [JObj [("name", JStr "hls_burn_scars");
                     ("field",
                      JArr [JObj [("name", JStr "hls_burn_scars/image");
                                  ("geocr:bandConfiguration",
                                   JObj [("totalBands", JInt 1);
                                         ("band1",
                                          JObj [("name", JStr "Red");
                                                ("wavelength", JStr "665nm");
                                                ("hlsBand", JStr "B04")])])]])]]);
        ("geocr:sensorCharacteristics",
         JArr [JObj [("bandConfiguration",
                      JObj [("band1",
                             JObj [("name", JStr "Blue");
                                   ("wavelength", JStr "490nm");
                                   ("hlsBand", JStr "B02")])])]])].

(** A source with the record-set band shape only. *)
Definition doc_record_set_shape : json :=
  JObj [("name", JStr "HLS Burn Scars");
        ("recordSet",
         JArr [JObj [("name", JStr "hls_burn_scars");
                     ("field",
                      JArr [JObj [("name", JStr "hls_burn_scars/image");
                                  ("geocr:bandConfiguration",
                                   JObj [("totalBands", JInt 1);
                                         ("band1",
                                          JObj [("name", JStr "Red");
                                                ("wavelength", JStr "665nm");
                                                ("hlsBand", JStr "B04")])])]])]])].

(** Class names whose keys collide: "Water" is the second class. *)
Definition doc_classes_collide : json :=
  JObj [("name", JStr "HLS Burn Scars");
        ("recordSet", JArr [JObj [("name", JStr "hls_burn_scars")]]);
        ("geocr:mlTask", JObj [("classes", JArr [JStr "BurnScar"; JStr "Water"])])].

(** Class names whose keys do not collide. *)
Definition doc_classes : json :=
  JObj [("name", JStr "HLS Burn Scars");
        ("recordSet", JArr [JObj [("name", JStr "hls_burn_scars")]]);
        ("geocr:mlTask",
         JObj [("classes", JArr [JStr "NotBurned"; JStr "BurnScar"; JStr "Water"])])].

(** The pair list of P6 with [totalSamples] set to 1. *)
Definition doc_skip_capped : json :=
  JObj [("name", JStr "HLS Burn Scars");
        ("recordSet", JArr [JObj [("name", JStr "hls_burn_scars")]]);
        ("geocr:dataStatistics", JObj [("totalSamples", JInt 1)]);
        ("geocr:fileListing",
         JObj [("images", JObj [("train", urls ["a.tif"; ""; "c.tif"])]);
               ("annotations",
                JObj [("train", urls ["a.mask.tif"; "b.mask.tif"; "c.mask.tif"])])])].

(** A record-set sequence whose only entry is the empty object. *)
Definition doc_empty_record_set : json :=
  JObj [("name", JStr "Other dataset"); ("recordSet", JArr [JObj []])].

(** A recognized class name listed twice. *)
Definition doc_classes_repeated : json :=
  JObj [("name", JStr "HLS Burn Scars");
        ("recordSet", JArr [JObj [("name", JStr "hls_burn_scars")]]);
        ("geocr:mlTask", JObj [("classes", JArr [JStr "NotBurned"; JStr "NotBurned"])])].


(** ** The lines a run prints *)

(** The fallback warning of the record-set selection: printed when no entry
    of a non-empty sequence is picked by the loop. *)
Definition selection_warning_of (record_sets : json) : list line :=
  match record_sets with
  | JArr (first :: rest) =>
      if forallb unmarked (first :: rest)
      then [WarnFirstRecordSet (shown_name first)]
      else []
  | _ => []
  end.

Definition selection_warning (source : json) : list line :=
  match field source "recordSet" with
  | Some record_sets => selection_warning_of record_sets
  | None => []
  end.

Definition classes_warning (source : json) : list line :=
  match ml_task_classes source with
  | [] => [WarnNoClasses]
  | _ => []
  end.

Definition bands_warning (source : json) : list line :=
  match top_level_band_items source with
  | [] => [WarnNoBands]
  | _ => []
  end.

(** The source has a file listing that is not empty. *)
Definition has_listing (source : json) : bool :=
  match field source "geocr:fileListing" with
  | Some file_listing => Py.truthy file_listing
  | None => false
  end.

Definition data_warnings (source : json) : list line :=
  if negb (has_listing source) then [WarnNoFileListing]
  else if (min_pairs source =? 0)%nat then [WarnNoPairs]
  else robust_skips source.

(** A member that is absent or empty. *)
Definition falsy_field (v : json) (k : string) : bool :=
  match field v k with
  | Some x => negb (Py.truthy x)
  | None => true
  end.

(** The members a target can lack: the other required ones always have a
    non-empty value. *)
Definition optional_fields : list string := ["name"; "version"; "data"].

Definition missing_fields (tdml : json) : list string :=
  filter (falsy_field tdml) optional_fields.

Definition missing_warning (tdml : json) : list line :=
  match missing_fields tdml with
  | [] => []
  | missing => [WarnMissingFields missing]
  end.

Definition robust_warnings (source tdml : json) : list line :=
  selection_warning source ++ classes_warning source ++ bands_warning source
  ++ data_warnings source ++ missing_warning tdml.

(** One statistic of the source, 0 when it is not set. *)
Definition statistic (source : json) (k : string) : json :=
  match source with
  | JObj doc =>
      match Py.get (Py.get_or doc "geocr:dataStatistics" (JObj [])) k (JInt 0) with
      | Ok t => t
      | _ => JInt 0
      end
  | _ => JInt 0
  end.

(** The length of a sequence member of a target. *)
Definition count (tdml : json) (k : string) : nat :=
  match field tdml k with
  | Some v => length (elements v)
  | None => 0
  end.

(** The summary printed after the target is written. *)
Definition summary (c : converter) (dst : string) (source tdml : json) : list line :=
  match c with
  | robust =>
      [InfoWritten dst;
       InfoDataset (name_rule robust source);
       InfoTotal (total_samples source);
       InfoTraining (statistic source "trainingSamples");
       InfoValidation (statistic source "validationSamples");
       InfoClasses (count tdml "classes");
       InfoBands (count tdml "bands");
       InfoEntries (count tdml "data")]
  | plain =>
      [InfoWritten dst;
       InfoDataset (name_rule plain source);
       InfoTotal (total_samples source);
       InfoClasses (count tdml "classes");
       InfoBands (count tdml "bands")]
  end.

Definition is_skip (x : line) : bool :=
  match x with
  | WarnSkip _ => true
  | _ => false
  end.

(** The members of a target that are never empty with fallbacks. *)
Definition guarded_fields : list string :=
  ["type"; "id"; "description"; "license"; "providers"; "createdTime";
   "updatedTime"; "tasks"; "classes"; "bands"].

(** The message the target path's write error is raised with. *)
Definition write_error (c : converter) (err : string) : exn :=
  match c with
  | robust => Exn IOError (Some ("Failed to write TDML file: " ++ err)%string)
  | plain => Exn IOError (Some err)
  end.

(** Two source objects with the same members apart from [recordSet]. *)
Definition same_but_record_sets (d1 d2 : list (string * json)) : Prop :=
  forall k, k <> "recordSet" -> Py.lookup d1 k = Py.lookup d2 k.

(** ** Data entries of the two converters, compared *)

(** What an entry says: its id, its image URLs and its label's URLs. *)
Definition entry_core (e : json) : option json * option json * option json :=
  (entry_id e, data_url e, label_image_url e).

(** An entry both of whose URLs are non-empty. *)
Definition entry_usable (e : json) : bool :=
  match data_url e, label_image_url e with
  | Some (JArr [img_url]), Some (JArr [mask_url]) => usable img_url mask_url
  | _, _ => false
  end.

(** ** Sample worlds *)

(** The world of [disk] with a target path that cannot be opened. *)
Definition locked (source : json) : world :=
  World [("in.json", Document source)]
        [("out.json", "[Errno 13] Permission denied: 'out.json'")].

Definition is_missing_fields (x : line) : bool :=
  match x with
  | WarnMissingFields _ => true
  | _ => false
  end.

(** ** A sample document with every part *)

Definition doc_full : json :=
  JObj [("@id", JStr "hls-burn-scars");
        ("name", JStr "HLS Burn Scars");
        ("description", JStr "Burn scars in HLS imagery");
        ("license", JArr [JStr "cc-by-4.0"]);
        ("creator", JArr [JObj [("name", JStr "NASA")]; JStr "IBM"]);
        ("version", JStr "0.0.1");
        ("recordSet",
         JArr [JObj [("name", JStr "hls_burn_scars");
                     ("field",
                      JArr [JObj [("name", JStr "hls_burn_scars/image");
                                  ("geocr:bandConfiguration",
                                   JObj [("totalBands", JInt 1);
                                         ("band1",
                                          JObj [("name", JStr "Red");
                                                ("wavelength", JStr "665nm");
                                                ("hlsBand", JStr "B04")])])];
                            JObj [("name", JStr "hls_burn_scars/annotation");
                                  ("geocr:classValues",
                                   JObj [("0", JStr "NotBurned");
                                         ("1", JStr "BurnScar")])]])]]);
        ("geocr:sensorCharacteristics",
         JArr [JObj [("bandConfiguration",
                      JObj [("band1",
                             JObj [("name", JStr "Blue");
                                   ("wavelength", JStr "490nm");
                                   ("hlsBand", JStr "B02")])])]]);
        ("geocr:mlTask", JObj [("classes", JArr [JStr "NotBurned"; JStr "BurnScar"])]);
        ("geocr:dataStatistics",
         JObj [("totalSamples", JInt 4);
               ("trainingSamples", JInt 3);
               ("validationSamples", JInt 2)]);
        ("geocr:fileListing",
         JObj [("images",
                JObj [("train", urls ["t0.tif"; ""; "t2.tif"]);
                      ("val", urls ["v0.tif"; "v1.tif"])]);
               ("annotations",
                JObj [("train", urls ["t0.mask.tif"; "t1.mask.tif"; "t2.mask.tif"]);
                      ("val", urls ["v0.mask.tif"; "v1.mask.tif"])])])].

(** The same document with another record-set sequence. *)
Definition doc_full_other_record_sets : json :=
  match doc_full with
  | JObj doc =>
      JObj (map (fun kv =>
                   if (fst kv =? "recordSet")%string
                   then ("recordSet", JArr [JObj [("name", JStr "tiles")]])
                   else kv) doc)
  | _ => JNull
  end.

(** ** Reading a target back *)

(** The member each attribute of a [TrainingDataset] is read from. *)
Definition read_members (ds : TrainingDataset.t) : list (string * json) :=
  [("name", TrainingDataset.name ds);
   ("amountOfTrainingData", TrainingDataset.amount_of_training_data ds);
   ("numberOfClasses", TrainingDataset.number_of_classes ds);
   ("description", TrainingDataset.description ds);
   ("license", TrainingDataset.license ds);
   ("providers", TrainingDataset.providers ds);
   ("createdTime", TrainingDataset.created_time ds);
   ("updatedTime", TrainingDataset.updated_time ds);
   ("version", TrainingDataset.version ds);
   ("tasks", TrainingDataset.tasks ds);
   ("classes", TrainingDataset.classes ds);
   ("bands", TrainingDataset.bands ds);
   ("data", TrainingDataset.data ds);
   ("dataStatistics", TrainingDataset.data_statistics ds)].

(** The value [d.get(k, dflt)] of each attribute for an object [d]. *)
Definition read_defaults : list (string * json) :=
  [("name", JStr "");
   ("amountOfTrainingData", JInt 0);
   ("numberOfClasses", JInt 0);
   ("description", JStr "");
   ("license", JStr "");
   ("providers", JArr []);
   ("createdTime", JStr "");
   ("updatedTime", JStr "");
   ("version", JStr "");
   ("tasks", JArr []);
   ("classes", JArr []);
   ("bands", JArr []);
   ("data", JArr []);
   ("dataStatistics", JObj [])].

Definition is_object (v : json) : bool :=
  match v with
  | JObj _ => true
  | _ => false
  end.

(** A world holding one document that is not an object. *)
Definition disk_of_list : world := World [("out.json", Document (JArr []))] [].

(** ** The local dataset *)

(** One element of the list [get_file_pairs] returns. *)
Definition file_pair (img_file mask_file : string) : json :=
  JObj [("image", JStr img_file); ("annotation", JStr mask_file)].

Definition image_of (pair : json) : option json := field pair "image".

(** The two splits the loader asks for, and the pattern it hands to [glob]
    for each. *)
Definition used_splits : list string := ["training"; "validation"].

Definition split_pattern (split : string) : string :=
  (Loader.dataset_path ++ "/" ++ split ++ "/*_merged.tif")%string.

(** A directory listing with two images, one of them with its mask. *)
Definition sample_glob (pattern : string) : list string :=
  if (pattern =? split_pattern "training")%string
  then ["/d/training/a_merged.tif"; "/d/training/b_merged.tif"]
  else [].

Definition sample_exists (path : string) : bool :=
  (path =? "/d/training/b.mask.tif")%string.

(** ** Sources the converter with fallbacks accepts *)

(** A record set: a non-empty object whose name, when it has one, is a
    string. *)
Definition record_set_ready (rs : json) : bool :=
  match rs with
  | JObj d =>
      match Py.lookup d "name" with
      | Some (JStr _) => true
      | Some _ => false
      | None => match d with [] => false | _ => true end
      end
  | _ => false
  end.

Definition record_sets_ready (source : json) : bool :=
  match field source "recordSet" with
  | Some (JArr (first :: rest)) => forallb record_set_ready (first :: rest)
  | _ => false
  end.

(** The sensor characteristics: absent, or a list that is empty or starts
    with an object whose band configuration, when it has one, is an object
    with an object under every key starting with "band". *)
Definition sensor_ready (source : json) : bool :=
  match field source "geocr:sensorCharacteristics" with
  | None => true
  | Some (JArr []) => true
  | Some (JArr (JObj first :: _)) =>
      match Py.lookup first "bandConfiguration" with
      | None => true
      | Some (JObj config) =>
          forallb (fun kv => negb (Py.startswith (fst kv) "band") || is_object (snd kv))
                  config
      | Some _ => false
      end
  | Some _ => false
  end.

(** A value a dict can be asked for: a list or an object is not hashable. *)
Definition hashable (v : json) : bool :=
  match v with
  | JArr _ | JObj _ => false
  | _ => true
  end.

(** The task: absent, or an object whose classes, when they are a list,
    are hashable. *)
Definition ml_task_ready (source : json) : bool :=
  match field source "geocr:mlTask" with
  | None => true
  | Some (JObj ml_task) =>
      match Py.lookup ml_task "classes" with
      | Some (JArr names) => forallb hashable names
      | _ => true
      end
  | Some _ => false
  end.

(** The statistics: absent, or an object whose [totalSamples], when it has
    one, is an integer. *)
Definition statistics_ready (source : json) : bool :=
  match field source "geocr:dataStatistics" with
  | None => true
  | Some (JObj stats) =>
      match Py.lookup stats "totalSamples" with
      | None => true
      | Some t => match Py.as_int t with Some _ => true | None => false end
      end
  | Some _ => false
  end.

(** The file listing: absent, or an object whose sides, when it has them,
    are objects whose splits, when they have them, are lists. *)
Definition split_ready (of_side : list (string * json)) (split : string) : bool :=
  match Py.lookup of_side split with
  | None | Some (JArr _) => true
  | Some _ => false
  end.

Definition side_ready (file_listing : list (string * json)) (side : string) : bool :=
  match Py.lookup file_listing side with
  | None => true
  | Some (JObj of_side) => split_ready of_side "train" && split_ready of_side "val"
  | Some _ => false
  end.

Definition listing_ready (source : json) : bool :=
  match field source "geocr:fileListing" with
  | None => true
  | Some (JObj file_listing) =>
      side_ready file_listing "images" && side_ready file_listing "annotations"
  | Some _ => false
  end.

Definition ready (source : json) : bool :=
  record_sets_ready source && sensor_ready source && ml_task_ready source
  && statistics_ready source && listing_ready source.
(** * Properties *)

(** ** The two monads *)

Lemma obind_Ok {A B} (m : outcome A) (f : A -> outcome B) (b : B) :
  obind m f = Ok b -> exists a, m = Ok a /\ f a = Ok b.
Proof.
  destruct m as [a | e]; simpl; intros H; try discriminate.
  exists a. split; [reflexivity | exact H].
Qed.

Lemma bind_Ok {A B} (m : M A) (f : A -> M B) (l : list line) (b : B) :
  bind m f = (l, Ok b) ->
  exists l1 a l2, m = (l1, Ok a) /\ f a = (l2, Ok b) /\ l = l1 ++ l2.
Proof.
  destruct m as [l1 [a | e]]; simpl; try discriminate.
  destruct (f a) as [l2 r] eqn:Hf. intros H. inversion H; subst.
  exists l1, a, l2. repeat split; assumption.
Qed.

Lemma lift_Ok {A} (o : outcome A) (l : list line) (a : A) :
  lift o = (l, Ok a) -> o = Ok a /\ l = [].
Proof. unfold lift. intros H. inversion H. split; reflexivity. Qed.

Lemma ret_Ok {A} (x a : A) (l : list line) :
  ret x = (l, Ok a) -> x = a /\ l = [].
Proof. unfold ret. intros H. inversion H. split; reflexivity. Qed.

Lemma bind_ret {A B} (a : A) (f : A -> M B) : bind (ret a) f = f a.
Proof. unfold bind, ret. destruct (f a) as [l r]. reflexivity. Qed.

Lemma bind_lift_Ok {A B} (a : A) (f : A -> M B) : bind (lift (Ok a)) f = f a.
Proof. apply bind_ret. Qed.

(** Peel the successful steps off a hypothesis [H]. *)
Ltac peel H :=
  let l1 := fresh "l" in
  let a := fresh "a" in
  let l2 := fresh "l" in
  let H1 := fresh "Hstep" in
  let E := fresh "Elog" in
  apply bind_Ok in H; destruct H as (l1 & a & l2 & H1 & H & E);
  try (apply lift_Ok in H1; destruct H1 as [H1 ->]; simpl in E).

(** ** The file system *)

Lemma assoc_store {A} (l : list (string * A)) (k : string) (v : A) :
  assoc (store l k v) k = Some v.
Proof.
  induction l as [| [k' v'] l IH]; simpl.
  - rewrite String.eqb_refl. reflexivity.
  - destruct (k' =? k)%string eqn:E; simpl.
    + rewrite String.eqb_refl. reflexivity.
    + rewrite E. exact IH.
Qed.

Lemma written_write_json (w w' : world) (path : string) (v : json) :
  write_json w path v = inl w' -> written w' path = Some v.
Proof.
  unfold write_json, written.
  destruct (assoc (unwritable w) path); intros H; inversion H; subst; simpl.
  rewrite assoc_store. reflexivity.
Qed.

(** ** What a successful run computed *)

Lemma Robust_remap_Ok (croissant_data : json) (log : list line) (v : Robust.locals) :
  Robust.remap croissant_data = (log, Ok v) ->
  exists doc main bands0 classes0 l_sel l_cls l_bnd l_data l_chk,
    croissant_data = JObj doc
    /\ Robust.select_main_record_set (Py.get_or doc "recordSet" (JArr []))
         = (l_sel, Ok main)
    /\ Robust.extract_bands doc = Ok bands0
    /\ Robust.extract_classes doc = Ok classes0
    /\ Robust.classes_or_default classes0 = (l_cls, Ok (Robust.classes v))
    /\ Robust.bands_or_default bands0 = (l_bnd, Ok (Robust.bands v))
    /\ Py.get (Robust.data_stats_of doc) "totalSamples" (JInt 0)
         = Ok (Robust.total_samples v)
    /\ Robust.extract_data doc (Robust.total_samples v) = (l_data, Ok (Robust.data v))
    /\ Robust.tdml_structure v =
         JObj (Robust.structure doc (Robust.classes v) (Robust.bands v) (Robust.data v)
                 (Robust.total_samples v) (Robust.training_samples v)
                 (Robust.validation_samples v))
    /\ Robust.name v = Robust.name_of doc
    /\ log = l_sel ++ l_cls ++ l_bnd ++ l_data ++ l_chk.
Proof.
  unfold Robust.remap. destruct croissant_data as [ | | | | | doc]; try discriminate.
  intros H. do 11 peel H.
  apply ret_Ok in H. destruct H as [<- ->]. subst. simpl.
  exists doc. do 8 eexists. repeat split; eauto.
Qed.

Lemma Plain_remap_Ok (croissant_data : json) (log : list line) (v : Plain.locals) :
  Plain.remap croissant_data = (log, Ok v) ->
  exists doc main fields field_list data training validation,
    croissant_data = JObj doc
    /\ Plain.select_main_record_set (Py.get_or doc "recordSet" (JArr [])) = (log, Ok main)
    /\ Py.get main "field" (JArr []) = Ok fields
    /\ Py.iter fields = Ok field_list
    /\ Plain.fields_loop field_list [] [] = Ok (Plain.bands v, Plain.classes v)
    /\ Py.get (Plain.data_stats_of doc) "totalSamples" (JInt 0) = Ok (Plain.total_samples v)
    /\ Plain.extract_data doc (Plain.total_samples v) = Ok data
    /\ Plain.tdml_structure v =
         JObj (Plain.structure doc (Plain.classes v) (Plain.bands v) data
                 (Plain.total_samples v) training validation)
    /\ Plain.name v = Plain.name_of doc.
Proof.
  unfold Plain.remap. destruct croissant_data as [ | | | | | doc]; try discriminate.
  intros H. do 8 peel H.
  apply ret_Ok in H. destruct H as [<- ->]. subst. simpl.
  rewrite app_nil_r.
  exists doc. do 6 eexists. repeat split; eauto.
  destruct a2; assumption.
Qed.

Lemma Robust_convert_Ok (w w' : world) (src dst : string) (out : list line) :
  Robust.convert_geocroissant_to_tdml_manual w src dst = (w', (out, Ok tt)) ->
  exists croissant_data log v,
    written w src = Some croissant_data
    /\ Robust.remap croissant_data = (log, Ok v)
    /\ written w' dst = Some (Robust.tdml_structure v)
    /\ exists info, out = log ++ info.
Proof.
  unfold Robust.convert_geocroissant_to_tdml_manual.
  destruct (bind (Robust.load w src) _) as [l r] eqn:Hrun.
  destruct r as [v | e]; try (intros H; discriminate H).
  destruct (write_json w dst (Robust.tdml_structure v)) as [w1 | e] eqn:Hw;
    intros H; inversion H; subst; clear H.
  peel Hrun. unfold Robust.load, written in *.
  destruct (assoc (files w) src) as [[cd | e] | ]; try discriminate.
  apply ret_Ok in Hstep. destruct Hstep as [-> ->]. simpl in Elog. subst l.
  exists a, l1, v. repeat split; auto.
  - eapply written_write_json; eassumption.
  - eexists; reflexivity.
Qed.

Lemma Plain_convert_Ok (w w' : world) (src dst : string) (out : list line) :
  Plain.convert_geocroissant_to_tdml_manual w src dst = (w', (out, Ok tt)) ->
  exists croissant_data log v,
    written w src = Some croissant_data
    /\ Plain.remap croissant_data = (log, Ok v)
    /\ written w' dst = Some (Plain.tdml_structure v)
    /\ exists info, out = log ++ info.
Proof.
  unfold Plain.convert_geocroissant_to_tdml_manual.
  destruct (bind (Plain.load w src) _) as [l r] eqn:Hrun.
  destruct r as [v | e]; try (intros H; discriminate H).
  destruct (write_json w dst (Plain.tdml_structure v)) as [w1 | e] eqn:Hw;
    intros H; inversion H; subst; clear H.
  peel Hrun. unfold Plain.load, written in *.
  destruct (assoc (files w) src) as [[cd | e] | ]; try discriminate.
  apply ret_Ok in Hstep. destruct Hstep as [-> ->]. simpl in Elog. subst l.
  exists a, l1, v. repeat split; auto.
  - eapply written_write_json; eassumption.
  - eexists; reflexivity.
Qed.

(** ** Both converters: a successful run wrote the assembled target *)

Lemma run_Ok (c : converter) (w w' : world) (src dst : string) (out : list line) :
  run c w src dst = (w', (out, Ok tt)) ->
  exists source log tdml,
    written w src = Some source
    /\ target c source = (log, Ok tdml)
    /\ written w' dst = Some tdml
    /\ incl log out.
Proof.
  destruct c; simpl; intros H.
  - apply Robust_convert_Ok in H.
    destruct H as (cd & log & v & Hs & Hr & Hw & info & ->).
    exists cd, log, (Robust.tdml_structure v). rewrite Hr. simpl.
    rewrite app_nil_r. auto using incl_appl, incl_refl.
  - apply Plain_convert_Ok in H.
    destruct H as (cd & log & v & Hs & Hr & Hw & info & ->).
    exists cd, log, (Plain.tdml_structure v). rewrite Hr. simpl.
    rewrite app_nil_r. auto using incl_appl, incl_refl.
Qed.

Lemma target_robust_Ok (source : json) (log : list line) (tdml : json) :
  target robust source = (log, Ok tdml) ->
  exists v, Robust.remap source = (log, Ok v) /\ tdml = Robust.tdml_structure v.
Proof.
  simpl. intros H. peel H. apply ret_Ok in H. destruct H as [<- ->].
  rewrite app_nil_r in Elog. subst. eauto.
Qed.

Lemma target_plain_Ok (source : json) (log : list line) (tdml : json) :
  target plain source = (log, Ok tdml) ->
  exists v, Plain.remap source = (log, Ok v) /\ tdml = Plain.tdml_structure v.
Proof.
  simpl. intros H. peel H. apply ret_Ok in H. destruct H as [<- ->].
  rewrite app_nil_r in Elog. subst. eauto.
Qed.


(** ** Sequences *)

Lemma length_chars (s : string) : length (Py.chars s) = String.length s.
Proof.
  unfold Py.chars. rewrite length_map.
  induction s as [| c s IH]; simpl; [reflexivity | now rewrite IH].
Qed.

Lemma len_elements (v : json) (n : nat) : Py.len v = Ok n -> length (elements v) = n.
Proof.
  destruct v; simpl; try discriminate; intros H; inversion H; unfold elements; simpl.
  - apply length_chars.
  - reflexivity.
  - apply length_map.
Qed.

(** Only a list or a str can be both a sum and have a length. *)
Lemma add_len_getitem (a b v : json) (n i : nat) :
  Py.add a b = Ok v -> Py.len v = Ok n ->
  Py.getitem v i =
    match nth_error (elements v) i with
    | Some x => Ok x
    | None => fault IndexError
    end.
Proof.
  intros Ha Hl.
  destruct v; simpl in Hl; try discriminate; try reflexivity.
  exfalso. unfold Py.add in Ha.
  destruct a, b; simpl in Ha; try discriminate;
    repeat match type of Ha with
           | context [if ?b then _ else _] => destruct b
           end; discriminate.
Qed.

(** ** The data loop of the converter with fallbacks *)

Section RangeLoop.

(** Two sequence values that answer [v[j]] by position. *)
Variables ai aa : json.

Hypothesis images_by_position :
  forall j, Py.getitem ai j =
            match nth_error (elements ai) j with
            | Some x => Ok x
            | None => fault IndexError
            end.

Hypothesis annotations_by_position :
  forall j, Py.getitem aa j =
            match nth_error (elements aa) j with
            | Some x => Ok x
            | None => fault IndexError
            end.

Lemma Robust_data_loop_spec (n i : nat) (acc : list json) :
  i + n <= length (elements ai) ->
  i + n <= length (elements aa) ->
  Robust.data_loop ai aa n i acc =
    (flat_map (robust_skip (elements ai) (elements aa)) (seq i n),
     Ok (acc ++ flat_map (robust_step (elements ai) (elements aa)) (seq i n))).
Proof.
  revert i acc. induction n as [| n IH]; intros i acc Li La.
  - simpl. rewrite app_nil_r. reflexivity.
  - cbn [Robust.data_loop seq flat_map].
    rewrite images_by_position, annotations_by_position.
    unfold robust_skip at 1, robust_step at 1.
    destruct (nth_error (elements ai) i) as [img |] eqn:Ei;
      [| apply nth_error_None in Ei; lia].
    destruct (nth_error (elements aa) i) as [mask |] eqn:Ea;
      [| apply nth_error_None in Ea; lia].
    rewrite !bind_lift_Ok. unfold usable.
    destruct (Py.truthy img), (Py.truthy mask); simpl negb; simpl orb; simpl andb;
      cbv iota.
    + rewrite IH by lia. rewrite <- app_assoc. reflexivity.
    + unfold bind at 1, print. rewrite IH by lia. reflexivity.
    + unfold bind at 1, print. rewrite IH by lia. reflexivity.
    + unfold bind at 1, print. rewrite IH by lia. reflexivity.
Qed.

End RangeLoop.

Lemma robust_cap_no_pairs (source : json) :
  min_pairs source = 0 -> robust_cap source = 0.
Proof.
  intros H. unfold robust_cap. rewrite H.
  destruct (Py.as_int (total_samples source)) as [t |]; [destruct (0 <? t)%Z |]; lia.
Qed.

Lemma falsy_listing_no_pairs (doc : list (string * json)) :
  Py.truthy (Py.get_or doc "geocr:fileListing" (JObj [])) = false ->
  min_pairs (JObj doc) = 0.
Proof.
  intros H. unfold min_pairs, all_images, listing_side.
  destruct (Py.get_or doc "geocr:fileListing" (JObj [])) as [ | b | z | s | l | d];
    simpl in *; try reflexivity.
  destruct d; [reflexivity | discriminate].
Qed.

Lemma Robust_extract_data_spec (doc : list (string * json)) (total : json)
    (l : list line) (data : list json) :
  Py.get (Robust.data_stats_of doc) "totalSamples" (JInt 0) = Ok total ->
  Robust.extract_data doc total = (l, Ok data) ->
  data = robust_data (JObj doc) /\ incl (robust_skips (JObj doc)) l.
Proof.
  intros Ht H. unfold Robust.extract_data in H.
  destruct (Py.truthy (Py.get_or doc "geocr:fileListing" (JObj []))) eqn:Tl;
    simpl negb in H; cbv iota in H.
  2:{ peel H. apply ret_Ok in H. destruct H as [<- _].
      unfold robust_data, robust_skips.
      rewrite (robust_cap_no_pairs _ (falsy_listing_no_pairs _ Tl)). simpl.
      split; [reflexivity | apply incl_nil_l]. }
  do 10 peel H.
  assert (Ei : all_images (JObj doc) = elements a5).
  { unfold all_images, listing_side. rewrite Hstep. simpl. rewrite Hstep1. simpl.
    rewrite Hstep3. simpl. rewrite Hstep5. reflexivity. }
  assert (Ea : all_annotations (JObj doc) = elements a6).
  { unfold all_annotations, listing_side. rewrite Hstep0. simpl. rewrite Hstep2. simpl.
    rewrite Hstep4. simpl. rewrite Hstep6. reflexivity. }
  pose proof (len_elements _ Hstep7) as Li. pose proof (len_elements _ Hstep8) as La.
  assert (Em : min_pairs (JObj doc) = Nat.min a7 a8).
  { unfold min_pairs. rewrite Ei, Ea, Li, La. reflexivity. }
  destruct (Nat.min a7 a8 =? 0)%nat eqn:Ez.
  { peel H. apply ret_Ok in H. destruct H as [<- _].
    apply Nat.eqb_eq in Ez. rewrite <- Em in Ez.
    unfold robust_data, robust_skips. rewrite (robust_cap_no_pairs _ Ez). simpl.
    split; [reflexivity | apply incl_nil_l]. }
  apply Nat.eqb_neq in Ez. do 2 peel H.
  assert (Ec : Z.to_nat (Z.min a10 (Z.of_nat (Nat.min a7 a8))) = robust_cap (JObj doc)).
  { unfold robust_cap. rewrite Em.
    assert (Et : total_samples (JObj doc) = total).
    { unfold total_samples. unfold Robust.data_stats_of in Ht. rewrite Ht. reflexivity. }
    rewrite Et.
    destruct total as [ | b | z | s | x | d]; simpl in Hstep9; try discriminate;
      inversion Hstep9; subst a9; simpl.
    - destruct b; simpl in Hstep10; inversion Hstep10; subst a10; reflexivity.
    - destruct (0 <? z)%Z; simpl in Hstep10; inversion Hstep10; subst a10; reflexivity. }
  rewrite Ec in H.
  rewrite Robust_data_loop_spec in H.
  - inversion H; subst. simpl. unfold robust_data, robust_skips. rewrite Ei, Ea.
    split; [reflexivity | apply incl_refl].
  - intros j. eapply add_len_getitem; eassumption.
  - intros j. eapply add_len_getitem; eassumption.
  - rewrite <- Ec. lia.
  - rewrite <- Ec. lia.
Qed.

(** ** The data loop of the short converter *)

Ltac opeel H :=
  let a := fresh "a" in
  let H1 := fresh "Hstep" in
  apply obind_Ok in H; destruct H as (a & H1 & H).

Lemma Plain_data_loop_spec (tr total : json) (pairs : list (json * json)) (i : nat)
    (acc data : list json) :
  Plain.data_loop tr total pairs i acc = Ok data ->
  data = acc ++ plain_entries i
           (firstn (match Py.as_int total with
                    | Some t => Z.to_nat (Z.min 50 t - Z.of_nat i)
                    | None => 0
                    end) pairs).
Proof.
  revert i acc. induction pairs as [| [img mask] rest IH]; intros i acc H.
  - simpl in H. inversion H. rewrite firstn_nil. simpl. now rewrite app_nil_r.
  - cbn [Plain.data_loop] in H. opeel H.
    unfold Py.min_with in Hstep.
    destruct (Py.as_int total) as [t |] eqn:Et; [| discriminate].
    inversion Hstep; subst a; clear Hstep.
    destruct (Z.min 50 t <=? Z.of_nat i)%Z eqn:Eb.
    + inversion H; subst. apply Z.leb_le in Eb.
      replace (Z.to_nat (Z.min 50 t - Z.of_nat i)) with 0 by lia.
      simpl. now rewrite app_nil_r.
    + apply Z.leb_gt in Eb. opeel H. apply IH in H. try rewrite Et in H.
      replace (Z.to_nat (Z.min 50 t - Z.of_nat i))
        with (S (Z.to_nat (Z.min 50 t - Z.of_nat (S i)))) by lia.
      cbn [firstn plain_entries]. rewrite H, <- app_assoc. reflexivity.
Qed.

Lemma Plain_extract_data_spec (doc : list (string * json)) (total : json)
    (data : list json) :
  Py.get (Plain.data_stats_of doc) "totalSamples" (JInt 0) = Ok total ->
  Plain.extract_data doc total = Ok data ->
  data = plain_data (JObj doc).
Proof.
  intros Ht H. unfold Plain.extract_data in H. do 10 opeel H.
  apply Plain_data_loop_spec in H. simpl in H. subst data.
  unfold plain_data, plain_limit.
  assert (Et : total_samples (JObj doc) = total).
  { unfold total_samples. unfold Plain.data_stats_of in Ht. rewrite Ht. reflexivity. }
  rewrite Et.
  assert (Ei : all_images (JObj doc) = a7).
  { unfold all_images, listing_side. rewrite Hstep. simpl. rewrite Hstep1. simpl.
    rewrite Hstep3. simpl. rewrite Hstep5. unfold elements. rewrite Hstep7. reflexivity. }
  assert (Ea : all_annotations (JObj doc) = a8).
  { unfold all_annotations, listing_side. rewrite Hstep0. simpl. rewrite Hstep2. simpl.
    rewrite Hstep4. simpl. rewrite Hstep6. unfold elements. rewrite Hstep8. reflexivity. }
  rewrite Ei, Ea.
  destruct (Py.as_int total); [rewrite Z.sub_0_r |]; reflexivity.
Qed.

(** ** Both converters: the data of the target *)

Lemma target_data (c : converter) (source : json) (log : list line) (tdml : json) :
  target c source = (log, Ok tdml) ->
  field tdml "data" = Some (JArr (emitted c source))
  /\ (c = robust -> incl (robust_skips source) log).
Proof.
  destruct c; intros H.
  - apply target_robust_Ok in H. destruct H as (v & H & ->).
    apply Robust_remap_Ok in H.
    destruct H as (doc & main & b0 & c0 & l1 & l2 & l3 & l4 & l5 & H).
    destruct H as (-> & _ & _ & _ & _ & _ & Ht & Hd & -> & _ & ->).
    destruct (Robust_extract_data_spec _ Ht Hd) as [Ed Hs].
    split.
    + simpl. rewrite Ed. reflexivity.
    + intros _. intros x Hx. apply Hs in Hx.
      apply in_or_app; right. apply in_or_app; right. apply in_or_app; right.
      apply in_or_app; left. exact Hx.
  - apply target_plain_Ok in H. destruct H as (v & H & ->).
    apply Plain_remap_Ok in H.
    destruct H as (doc & main & fs & fl & data & tr & va & H).
    destruct H as (-> & _ & _ & _ & _ & Ht & Hd & -> & _).
    split; [| discriminate].
    simpl. rewrite (Plain_extract_data_spec _ Ht Hd). reflexivity.
Qed.

(** ** C1: the cap law *)

Lemma length_robust_steps (imgs anns : list json) (i n : nat) :
  length (flat_map (robust_step imgs anns) (seq i n)) <= n.
Proof.
  revert i. induction n as [| n IH]; intros i; simpl; [lia |].
  rewrite length_app. specialize (IH (S i)).
  unfold robust_step at 1.
  destruct (nth_error imgs i), (nth_error anns i); simpl; try lia.
  destruct (usable j j0); simpl; lia.
Qed.

Lemma length_plain_entries (i : nat) (pairs : list (json * json)) :
  length (plain_entries i pairs) = length pairs.
Proof.
  revert i. induction pairs as [| [a b] rest IH]; intros i; simpl; [| rewrite IH];
    reflexivity.
Qed.

Lemma emitted_within_cap (c : converter) (source : json) :
  within_cap source (length (emitted c source)).
Proof.
  unfold within_cap. destruct c; unfold emitted.
  - unfold robust_data.
    pose proof (length_robust_steps (all_images source) (all_annotations source) 0
                  (robust_cap source)) as L.
    unfold robust_cap in *. revert L.
    destruct (Py.as_int (total_samples source)) as [t |];
      [destruct (0 <? t)%Z eqn:Et; [apply Z.ltb_lt in Et |] |]; intros L; lia.
  - unfold plain_data, plain_limit.
    rewrite length_plain_entries, length_firstn, length_combine. fold (min_pairs source).
    destruct (Py.as_int (total_samples source)) as [t |];
      [destruct (0 <? t)%Z eqn:Et; [apply Z.ltb_lt in Et | apply Z.ltb_ge in Et] |]; lia.
Qed.



(** ** Decimal rendering *)

Lemma to_uint_nonnil (n : nat) : Nat.to_uint n <> Decimal.Nil.
Proof.
  rewrite <- (Unsigned.of_to n) at 1. rewrite Unsigned.to_of.
  apply DecimalFacts.unorm_nonnil.
Qed.

Lemma str_of_nat_inj (n m : nat) : Py.str_of_nat n = Py.str_of_nat m -> n = m.
Proof.
  unfold Py.str_of_nat. intros H.
  apply Unsigned.to_uint_inj.
  pose proof (NilZero.usu _ (to_uint_nonnil n)) as Hn.
  pose proof (NilZero.usu _ (to_uint_nonnil m)) as Hm.
  rewrite H in Hn. rewrite Hn in Hm. now inversion Hm.
Qed.

Lemma data_id_inj (i j : nat) : data_id i = data_id j -> i = j.
Proof.
  unfold data_id. intros H. apply str_of_nat_inj. simpl in H. now inversion H.
Qed.

(** ** Positions in the emitted data *)

Lemma nth_error_flat_map_seq {A} (f : nat -> list A) (s n k : nat) (e : A) :
  (forall i, length (f i) <= 1) ->
  nth_error (flat_map f (seq s n)) k = Some e ->
  exists i, s + k <= i /\ i < s + n /\ In e (f i).
Proof.
  intros Hf. revert s k. induction n as [| n IH]; intros s k H; simpl in H.
  - destruct k; discriminate.
  - specialize (Hf s) as Hs. destruct (f s) as [| x [| y r]] eqn:Es; simpl in *.
    + apply IH in H. destruct H as (i & H1 & H2 & H3). exists i. repeat split; auto; lia.
    + destruct k as [| k]; simpl in H.
      * inversion H; subst. exists s. rewrite Es. repeat split; simpl; auto; lia.
      * apply IH in H. destruct H as (i & H1 & H2 & H3).
        exists i. repeat split; auto; lia.
    + lia.
Qed.

Lemma flat_map_singletons {A B} (f : A -> list B) (g : A -> B) (l : list A) :
  (forall x, In x l -> f x = [g x]) -> flat_map f l = map g l.
Proof.
  induction l as [| x l IH]; intros H; simpl; [reflexivity |].
  rewrite H by (left; reflexivity). rewrite IH by (intros; apply H; right; assumption).
  reflexivity.
Qed.

Lemma robust_step_short (imgs anns : list json) (i : nat) :
  length (robust_step imgs anns i) <= 1.
Proof.
  unfold robust_step. destruct (nth_error imgs i), (nth_error anns i); simpl; try lia.
  destruct (usable j j0); simpl; lia.
Qed.

Lemma in_robust_step (imgs anns : list json) (i : nat) (e : json) :
  In e (robust_step imgs anns i) ->
  exists img mask,
    nth_error imgs i = Some img /\ nth_error anns i = Some mask
    /\ usable img mask = true /\ e = Robust.data_entry i img mask.
Proof.
  unfold robust_step.
  destruct (nth_error imgs i) as [img |], (nth_error anns i) as [mask |]; simpl;
    try contradiction.
  destruct (usable img mask) eqn:U; simpl; [| contradiction].
  intros [<- | []]. exists img, mask. repeat split; auto.
Qed.

Lemma nth_error_plain_entries (s k : nat) (pairs : list (json * json)) (e : json) :
  nth_error (plain_entries s pairs) k = Some e ->
  exists img mask, nth_error pairs k = Some (img, mask)
                   /\ e = Plain.data_entry (s + k) img mask.
Proof.
  revert s k. induction pairs as [| [a b] rest IH]; intros s k H; simpl in H.
  - destruct k; discriminate.
  - destruct k as [| k]; simpl in H.
    + inversion H; subst. exists a, b. rewrite Nat.add_0_r. split; reflexivity.
    + apply IH in H. destruct H as (img & mask & H1 & ->).
      exists img, mask. split; [exact H1 | f_equal; lia].
Qed.

Lemma nth_error_firstn_Some {A} (m k : nat) (l : list A) (x : A) :
  nth_error (firstn m l) k = Some x -> k < m /\ nth_error l k = Some x.
Proof.
  revert m k. induction l as [| y l IH]; intros m k H.
  - rewrite firstn_nil in H. destruct k; discriminate.
  - destruct m as [| m]; simpl in H; [destruct k; discriminate |].
    destruct k as [| k]; simpl in *; [split; [lia | exact H] |].
    apply IH in H. split; [lia | tauto].
Qed.

Lemma nth_error_combine {A B} (l1 : list A) (l2 : list B) (k : nat) (a : A) (b : B) :
  nth_error (combine l1 l2) k = Some (a, b) ->
  nth_error l1 k = Some a /\ nth_error l2 k = Some b.
Proof.
  revert l2 k. induction l1 as [| x l1 IH]; intros l2 k H; simpl in H.
  - destruct k; discriminate.
  - destruct l2 as [| y l2]; [destruct k; discriminate |].
    destruct k as [| k]; simpl in *; [inversion H; auto | apply IH; exact H].
Qed.

(** Every emitted entry carries the index, the image and the annotation of
    its pair in the combined source lists. *)
Lemma emitted_entry (c : converter) (source : json) (k : nat) (e : json) :
  nth_error (emitted c source) k = Some e ->
  exists i img mask,
    k <= i /\ (c = plain -> i = k)
    /\ nth_error (all_images source) i = Some img
    /\ nth_error (all_annotations source) i = Some mask
    /\ entry_id e = Some (data_id i)
    /\ data_url e = Some (JArr [img])
    /\ label_image_url e = Some (JArr [mask]).
Proof.
  destruct c; simpl; intros H.
  - apply (nth_error_flat_map_seq _ _ _ _ (robust_step_short _ _)) in H.
    destruct H as (i & H1 & _ & H3). apply in_robust_step in H3.
    destruct H3 as (img & mask & Hi & Ha & _ & ->).
    exists i, img, mask. repeat split; auto; try lia; discriminate.
  - unfold plain_data in H. apply nth_error_plain_entries in H.
    destruct H as (img & mask & H & ->). apply nth_error_firstn_Some in H.
    destruct H as [_ H]. apply nth_error_combine in H. destruct H as [Hi Ha].
    exists k, img, mask. repeat split; auto.
Qed.

(** ** The sources of P5 and P6 *)

Lemma listing_split_side (source : json) (side : string) (t v : list json) :
  listing_split source side "train" = Some (JArr t) ->
  listing_split source side "val" = Some (JArr v) ->
  listing_side source side = Ok (JArr (t ++ v)).
Proof.
  unfold listing_split, listing_side, field, Py.get_or.
  destruct source as [ | | | | | doc]; try discriminate.
  destruct (Py.lookup doc "geocr:fileListing") as [[ | | | | | fl] |]; try discriminate.
  simpl. unfold Py.get_or.
  destruct (Py.lookup fl side) as [[ | | | | | s] |]; try discriminate.
  simpl. unfold Py.get_or. intros -> ->. reflexivity.
Qed.

Lemma total_unset_zero (source : json) :
  total_unset source -> total_samples source = JInt 0.
Proof.
  unfold total_unset, total_samples. destruct source as [ | | | | | doc]; try reflexivity.
  simpl field. unfold Py.get_or. intros H.
  destruct (Py.lookup doc "geocr:dataStatistics") as [stats |]; [| reflexivity].
  specialize (H stats eq_refl).
  destruct stats as [ | | | | | d]; try reflexivity.
  simpl in *. unfold Py.get_or. rewrite H. reflexivity.
Qed.

(** When every visited pair is usable the loop emits one entry per index. *)
Lemma robust_data_all_usable (source : json) :
  (forall i, i < robust_cap source ->
             exists img mask,
               nth_error (all_images source) i = Some img
               /\ nth_error (all_annotations source) i = Some mask
               /\ usable img mask = true) ->
  robust_data source =
    map (fun i => Robust.data_entry i (nth i (all_images source) JNull)
                                    (nth i (all_annotations source) JNull))
        (seq 0 (robust_cap source)).
Proof.
  intros H. unfold robust_data. apply flat_map_singletons.
  intros i Hi. apply in_seq in Hi. destruct (H i) as (img & mask & Ei & Ea & U); [lia |].
  unfold robust_step. rewrite Ei, Ea, U.
  rewrite (nth_error_nth _ _ JNull Ei), (nth_error_nth _ _ JNull Ea). reflexivity.
Qed.

Lemma p5_robust_data (source : json) :
  p5_shape source ->
  robust_data source =
    map (fun i => Robust.data_entry i (nth i (all_images source) JNull)
                                    (nth i (all_annotations source) JNull))
        (seq 0 5)
  /\ length (all_annotations source) = 5.
Proof.
  intros (ti & vi & ta & va & Hti & Hvi & Hta & Hva & Lti & Lvi & Lta & Lva & Hall & Hun).
  pose proof (listing_split_side _ _ Hti Hvi) as Ei.
  pose proof (listing_split_side _ _ Hta Hva) as Ea.
  assert (Eim : all_images source = ti ++ vi) by (unfold all_images; now rewrite Ei).
  assert (Ean : all_annotations source = ta ++ va)
    by (unfold all_annotations; now rewrite Ea).
  assert (Ec : robust_cap source = 5).
  { unfold robust_cap, min_pairs. rewrite (total_unset_zero Hun), Eim, Ean, !length_app.
    rewrite Lti, Lvi, Lta, Lva. reflexivity. }
  split; [| rewrite Ean, length_app; lia].
  rewrite <- Ec. apply robust_data_all_usable. rewrite Ec. intros i Hi.
  rewrite Eim, Ean.
  assert (Hi1 : i < length (ti ++ vi)) by (rewrite length_app; lia).
  assert (Hi2 : i < length (ta ++ va)) by (rewrite length_app; lia).
  destruct (nth_error (ti ++ vi) i) as [img |] eqn:E1;
    [| apply nth_error_None in E1; lia].
  destruct (nth_error (ta ++ va) i) as [mask |] eqn:E2;
    [| apply nth_error_None in E2; lia].
  exists img, mask. repeat split. unfold usable.
  rewrite Forall_forall in Hall.
  rewrite (Hall img), (Hall mask); [reflexivity | |].
  - apply nth_error_In in E2. rewrite !in_app_iff in *. tauto.
  - apply nth_error_In in E1. rewrite !in_app_iff in *. tauto.
Qed.

(** ** C2: the ids of the data entries *)

(** C2, as amended. Each data entry of the target has the id "data_<i>"
    where [i] is the index of its pair in the combined source lists (train
    then val), its [dataUrl] is the image and its label's [imageUrl] the
    annotation at that index; [i] is never below the entry's position in
    the output and equals it in the short converter, which skips nothing.
    With fallbacks, a source with train sequences of length 3, val
    sequences of length 2, every URL non-empty and no [totalSamples] gives
    exactly 5 entries, ids data_0 to data_4, each label [imageUrl] being the
    annotation URL at the same combined index. *)
Theorem ids_are_source_indices (c : converter) (w w' : world) (src dst : string)
    (out : list line) (source : json) :
  written w src = Some source ->
  run c w src dst = (w', (out, Ok tt)) ->
  exists tdml data,
    written w' dst = Some tdml
    /\ field tdml "data" = Some (JArr data)
    /\ (forall k e, nth_error data k = Some e ->
          exists i img mask,
            k <= i /\ (c = plain -> i = k)
            /\ nth_error (all_images source) i = Some img
            /\ nth_error (all_annotations source) i = Some mask
            /\ entry_id e = Some (data_id i)
            /\ data_url e = Some (JArr [img])
            /\ label_image_url e = Some (JArr [mask]))
    /\ (c = robust -> p5_shape source ->
          length data = 5
          /\ forall k, k < 5 ->
               exists e mask,
                 nth_error data k = Some e
                 /\ entry_id e = Some (data_id k)
                 /\ nth_error (all_annotations source) k = Some mask
                 /\ label_image_url e = Some (JArr [mask])).
Proof.
  intros Hsrc H. apply run_Ok in H.
  destruct H as (source' & log & tdml & Hs & Ht & Hw & Hout).
  rewrite Hsrc in Hs. inversion Hs; subst source'; clear Hs.
  exists tdml, (emitted c source). split; [exact Hw |].
  split; [apply (target_data _ _ Ht) |]. split.
  - intros k e. apply emitted_entry.
  - intros -> Hp. destruct (p5_robust_data Hp) as [Ed La]. simpl. rewrite Ed.
    split; [rewrite length_map, length_seq; reflexivity |].
    intros k Hk.
    destruct (nth_error (all_annotations source) k) as [mask |] eqn:Em;
      [| apply nth_error_None in Em; lia].
    exists (Robust.data_entry k (nth k (all_images source) JNull) mask), mask.
    repeat split.
    rewrite (nth_error_map _ k (seq 0 5)).
    rewrite (nth_error_nth' (seq 0 5) 0) by (rewrite length_seq; exact Hk).
    rewrite seq_nth by exact Hk. simpl.
    rewrite (nth_error_nth _ _ JNull Em). reflexivity.
Qed.

(** The source of P5 has the shape the theorem asks for. *)
Lemma doc_pairs_p5 : p5_shape doc_pairs.
Proof.
  exists [JStr "t0.tif"; JStr "t1.tif"; JStr "t2.tif"], [JStr "v0.tif"; JStr "v1.tif"],
         [JStr "t0.mask.tif"; JStr "t1.mask.tif"; JStr "t2.mask.tif"],
         [JStr "v0.mask.tif"; JStr "v1.mask.tif"].
  repeat split; try reflexivity.
  - repeat constructor.
  - intros stats H. discriminate H.
Qed.

Lemma ids_are_source_indices_witness :
  exists tdml data,
    written (fst (converted robust doc_pairs)) "out.json" = Some tdml
    /\ field tdml "data" = Some (JArr data)
    /\ length data = 5
    /\ forall k, k < 5 ->
         exists e mask,
           nth_error data k = Some e
           /\ entry_id e = Some (data_id k)
           /\ nth_error (all_annotations doc_pairs) k = Some mask
           /\ label_image_url e = Some (JArr [mask]).
Proof.
  destruct (@ids_are_source_indices robust (disk doc_pairs)
              (fst (converted robust doc_pairs)) "in.json" "out.json"
              (fst (snd (converted robust doc_pairs))) doc_pairs
              eq_refl)
    as (tdml & data & Hw & Hd & _ & Hp5).
  - vm_compute. reflexivity.
  - exists tdml, data. split; [exact Hw |]. split; [exact Hd |].
    apply Hp5; [reflexivity | exact doc_pairs_p5].
Defined.

(** C2 as stated fails with fallbacks: after a skipped pair the ids are
    source indices, so the entry at output position 1 is data_2.  Its
    instance fails in the short converter: with no [totalSamples] the
    source of P5 gets no entry at all. *)
Lemma ids_count_output_positions_counterexample :
  (exists tdml,
     written (fst (converted robust doc_skip)) "out.json" = Some tdml
     /\ data_ids tdml = [Some (data_id 0); Some (data_id 2)]
     /\ nth 1 (data_ids tdml) None <> Some (data_id 1))
  /\ (p5_shape doc_pairs
      /\ exists tdml,
           written (fst (converted plain doc_pairs)) "out.json" = Some tdml
           /\ field tdml "data" = Some (JArr [])).
Proof.
  split.
  - eexists. split; [vm_compute; reflexivity |]. split; [reflexivity |].
    vm_compute. discriminate.
  - split; [exact doc_pairs_p5 |].
    eexists. split; [vm_compute; reflexivity | reflexivity].
Qed.

(** ** C3: the derived counts *)

Lemma target_count_invariants (c : converter) (source : json) (log : list line)
    (tdml : json) :
  target c source = (log, Ok tdml) -> count_invariants tdml.
Proof.
  destruct c; intros H.
  - apply target_robust_Ok in H. destruct H as (v & H & ->).
    apply Robust_remap_Ok in H.
    destruct H as (doc & main & b0 & c0 & l1 & l2 & l3 & l4 & l5 & H).
    destruct H as (_ & _ & _ & _ & _ & _ & _ & _ & -> & _).
    exists (Robust.data v), (Robust.classes v). repeat split.
  - apply target_plain_Ok in H. destruct H as (v & H & ->).
    apply Plain_remap_Ok in H.
    destruct H as (doc & main & fs & fl & data & tr & va & H).
    destruct H as (_ & _ & _ & _ & _ & _ & _ & -> & _).
    exists data, (Plain.classes v). repeat split.
Qed.



(** ** C4: pairs with a missing URL *)

Lemma plain_entries_nth_error (s k : nat) (pairs : list (json * json)) (img mask : json) :
  nth_error pairs k = Some (img, mask) ->
  nth_error (plain_entries s pairs) k = Some (Plain.data_entry (s + k) img mask).
Proof.
  revert s k. induction pairs as [| [a b] rest IH]; intros s k H.
  - destruct k; discriminate.
  - destruct k as [| k]; simpl in *.
    + inversion H; subst. rewrite Nat.add_0_r. reflexivity.
    + rewrite (IH (S s) k H). do 2 f_equal. lia.
Qed.

Lemma firstn_nth_error {A} (m k : nat) (l : list A) :
  k < m -> nth_error (firstn m l) k = nth_error l k.
Proof.
  revert m k. induction l as [| y l IH]; intros m k H.
  - rewrite firstn_nil. reflexivity.
  - destruct m as [| m]; [lia |]. destruct k as [| k]; simpl; [reflexivity |].
    apply IH. lia.
Qed.

Lemma combine_nth_error {A B} (l1 : list A) (l2 : list B) (k : nat) (a : A) (b : B) :
  nth_error l1 k = Some a -> nth_error l2 k = Some b ->
  nth_error (combine l1 l2) k = Some (a, b).
Proof.
  revert l2 k. induction l1 as [| x l1 IH]; intros l2 k H1 H2.
  - destruct k; discriminate.
  - destruct l2 as [| y l2]; [destruct k; discriminate |].
    destruct k as [| k]; simpl in *; [inversion H1; inversion H2; reflexivity |].
    apply IH; assumption.
Qed.

(** C4, as amended. With fallbacks, among the pairs the loop visits (the
    first min(max_samples, min_pairs) pairs of the combined lists) a pair
    whose image or annotation URL is empty or missing is skipped with a
    warning and leaves no entry, and every other visited pair is emitted;
    with no [totalSamples] the pair list [("a.tif","a.mask.tif"),
    ("","b.mask.tif"), ("c.tif","c.mask.tif")] gives exactly the 2 entries
    of the first and the third pair.  The short converter checks no URL:
    every pair it draws becomes an entry. *)
Theorem unusable_pairs_are_skipped (c : converter) (w w' : world) (src dst : string)
    (out : list line) (source : json) :
  written w src = Some source ->
  run c w src dst = (w', (out, Ok tt)) ->
  exists tdml data,
    written w' dst = Some tdml
    /\ field tdml "data" = Some (JArr data)
    /\ (c = robust ->
        forall i img mask,
          i < robust_cap source ->
          nth_error (all_images source) i = Some img ->
          nth_error (all_annotations source) i = Some mask ->
          if usable img mask then In (Robust.data_entry i img mask) data
          else In (WarnSkip i) out
               /\ forall e, In e data -> entry_id e <> Some (data_id i))
    /\ (c = robust -> p6_shape source ->
        data = [Robust.data_entry 0 (JStr "a.tif") (JStr "a.mask.tif");
                Robust.data_entry 2 (JStr "c.tif") (JStr "c.mask.tif")]
        /\ In (WarnSkip 1) out)
    /\ (c = plain ->
        forall i img mask,
          i < plain_limit source ->
          nth_error (all_images source) i = Some img ->
          nth_error (all_annotations source) i = Some mask ->
          nth_error data i = Some (Plain.data_entry i img mask)).
Proof.
  intros Hsrc H. apply run_Ok in H.
  destruct H as (source' & log & tdml & Hs & Ht & Hw & Hout).
  rewrite Hsrc in Hs. inversion Hs; subst source'; clear Hs.
  exists tdml, (emitted c source). split; [exact Hw |].
  destruct (target_data _ _ Ht) as [Hd Hlog]. split; [exact Hd |].
  split; [| split].
  - intros -> i img mask Hi Ei Ea. specialize (Hlog eq_refl). simpl.
    destruct (usable img mask) eqn:U.
    + unfold robust_data. apply in_flat_map. exists i. split; [apply in_seq; lia |].
      unfold robust_step. rewrite Ei, Ea, U. left; reflexivity.
    + split.
      * apply Hout, Hlog. unfold robust_skips. apply in_flat_map.
        exists i. split; [apply in_seq; lia |].
        unfold robust_skip. rewrite Ei, Ea, U. left; reflexivity.
      * intros e He Hid. unfold robust_data in He. apply in_flat_map in He.
        destruct He as (j & _ & He). apply in_robust_step in He.
        destruct He as (img' & mask' & Ei' & Ea' & U' & ->).
        change (Some (data_id j) = Some (data_id i)) in Hid.
        assert (j = i) by (apply data_id_inj; congruence).
        subst j. congruence.
  - intros -> (Ei & Ea & Hun). specialize (Hlog eq_refl). split.
    + simpl. unfold robust_data, robust_cap, min_pairs.
      rewrite (total_unset_zero Hun), Ei, Ea. reflexivity.
    + apply Hout, Hlog. unfold robust_skips, robust_cap, min_pairs.
      rewrite (total_unset_zero Hun), Ei, Ea. simpl. left; reflexivity.
  - intros -> i img mask Hi Ei Ea. simpl. unfold plain_data.
    apply (plain_entries_nth_error 0). rewrite firstn_nth_error by exact Hi.
    apply combine_nth_error; assumption.
Qed.

(** The source of P6 has the shape the theorem asks for. *)
Lemma doc_skip_p6 : p6_shape doc_skip.
Proof.
  repeat split. intros stats H. discriminate H.
Qed.

Lemma unusable_pairs_are_skipped_witness :
  exists tdml data,
    written (fst (converted robust doc_skip)) "out.json" = Some tdml
    /\ field tdml "data" = Some (JArr data)
    /\ data = [Robust.data_entry 0 (JStr "a.tif") (JStr "a.mask.tif");
               Robust.data_entry 2 (JStr "c.tif") (JStr "c.mask.tif")]
    /\ In (WarnSkip 1) (fst (snd (converted robust doc_skip))).
Proof.
  destruct (@unusable_pairs_are_skipped robust (disk doc_skip)
              (fst (converted robust doc_skip)) "in.json" "out.json"
              (fst (snd (converted robust doc_skip))) doc_skip
              eq_refl)
    as (tdml & data & Hw & Hd & _ & Hp6 & _).
  - vm_compute. reflexivity.
  - exists tdml, data. split; [exact Hw |]. split; [exact Hd |].
    apply Hp6; [reflexivity | exact doc_skip_p6].
Defined.

(** C4 as stated fails in the short converter: with [totalSamples]
    covering the three pairs it emits all three, the one with the empty
    image URL too.  With fallbacks it fails beyond the cap: with
    [totalSamples] set to 1 the third pair, whose URLs are there, is not
    emitted. *)
Lemma skip_on_missing_url_counterexample :
  (exists tdml,
     written (fst (converted plain doc_skip_counted)) "out.json" = Some tdml
     /\ data_ids tdml = [Some (data_id 0); Some (data_id 1); Some (data_id 2)]
     /\ length (data_ids tdml) <> 2)
  /\ (exists tdml,
        written (fst (converted robust doc_skip_capped)) "out.json" = Some tdml
        /\ data_ids tdml = [Some (data_id 0)]
        /\ length (data_ids tdml) <> 2).
Proof.
  split; (eexists; split; [vm_compute; reflexivity |]; split; [reflexivity |]);
    vm_compute; discriminate.
Qed.

(** ** Interpreter faults *)

Create HintDb faults.

Lemma faulty_obind {A B} (m : outcome A) (f : A -> outcome B) :
  faulty m -> (forall a, faulty (f a)) -> faulty (obind m f).
Proof. destruct m as [a | [c [s |]]]; simpl; auto. Qed.

Lemma faulty_Ok {A} (a : A) : faulty (Ok a).
Proof. exact I. Qed.

Lemma faulty_get (v : json) (k : string) (d : json) : faulty (Py.get v k d).
Proof. destruct v; simpl; auto. Qed.

Lemma faulty_len (v : json) : faulty (Py.len v).
Proof. destruct v; simpl; auto. Qed.

Lemma faulty_getitem (v : json) (i : nat) : faulty (Py.getitem v i).
Proof.
  destruct v; simpl; auto.
  - destruct (nth_error (Py.chars s) i); simpl; auto.
  - destruct (nth_error items i); simpl; auto.
Qed.

Lemma faulty_items (v : json) : faulty (Py.items v).
Proof. destruct v; simpl; auto. Qed.

Lemma faulty_contains (s : string) (v : json) : faulty (Py.contains s v).
Proof. destruct v; simpl; auto. Qed.

Lemma faulty_subscript (v : json) (k : string) : faulty (Py.subscript v k).
Proof. destruct v; simpl; auto. destruct (Py.lookup members k); simpl; auto. Qed.

Lemma faulty_add (a b : json) : faulty (Py.add a b).
Proof.
  unfold Py.add.
  destruct a, b; simpl; auto;
    repeat match goal with |- context [if ?b then _ else _] => destruct b end;
    simpl; auto.
Qed.

Lemma faulty_gt0 (v : json) : faulty (Py.gt0 v).
Proof. destruct v; simpl; auto. Qed.

Lemma faulty_min_with (n : Z) (v : json) : faulty (Py.min_with n v).
Proof. unfold Py.min_with. destruct v; simpl; auto. Qed.

Lemma faulty_int_of (v : json) : faulty (Py.int_of v).
Proof. unfold Py.int_of. destruct v; simpl; auto. Qed.

Lemma faulty_iter (v : json) : faulty (Py.iter v).
Proof. destruct v; simpl; auto. Qed.

Lemma faulty_lower_of (v : json) : faulty (Py.lower_of v).
Proof. destruct v; simpl; auto. Qed.

#[local] Hint Resolve faulty_obind faulty_Ok faulty_get faulty_len faulty_getitem
  faulty_items faulty_contains faulty_subscript faulty_add faulty_gt0
  faulty_min_with faulty_int_of faulty_iter faulty_lower_of : faults.

Lemma faulty_bind {A B} (m : M A) (f : A -> M B) :
  faulty (snd m) -> (forall a, faulty (snd (f a))) -> faulty (snd (bind m f)).
Proof.
  destruct m as [l [a | [c [s |]]]]; simpl; auto.
  intros _ H. specialize (H a). destruct (f a); exact H.
Qed.

Lemma faulty_lift {A} (o : outcome A) : faulty o -> faulty (snd (lift o)).
Proof. auto. Qed.

Lemma faulty_ret {A} (a : A) : faulty (snd (ret a)).
Proof. exact I. Qed.

Lemma faulty_print (x : line) : faulty (snd (print x)).
Proof. exact I. Qed.

#[local] Hint Resolve faulty_bind faulty_lift faulty_ret faulty_print : faults.

(** Apply the rules of the database down a chain of binds. *)
Ltac faults :=
  repeat match goal with
    | |- faulty (snd (bind _ _)) => apply faulty_bind; [| intros ?]
    | |- faulty (obind _ _) => apply faulty_obind; [| intros ?]
    | |- faulty (snd (lift _)) => apply faulty_lift
    | |- faulty (snd (if ?b then _ else _)) => destruct b
    | |- faulty (if ?b then _ else _) => destruct b
    | |- faulty (snd (match ?x with _ => _ end)) => destruct x
    | |- faulty (match ?x with _ => _ end) => destruct x
    | |- _ => exact I
    | |- _ => solve [auto with faults]
    end.

Lemma faulty_bands_loop (items : list (string * json)) (bands : list json) :
  faulty (Robust.bands_loop items bands).
Proof.
  revert bands. induction items as [| [k info] rest IH]; intros bands;
    cbn [Robust.bands_loop]; faults; apply IH.
Qed.

Lemma faulty_extract_bands (doc : list (string * json)) : faulty (Robust.extract_bands doc).
Proof. unfold Robust.extract_bands. faults. apply faulty_bands_loop. Qed.

Lemma faulty_class_key (n : nat) (v : json) : faulty (Robust.class_key n v).
Proof. destruct v; simpl; auto. Qed.

Lemma faulty_classes_loop (l classes : list json) : faulty (Robust.classes_loop l classes).
Proof.
  revert classes. induction l as [| x l IH]; intros classes; cbn [Robust.classes_loop].
  - exact I.
  - apply faulty_obind; [apply faulty_class_key | intros k; apply IH].
Qed.

Lemma faulty_extract_classes (doc : list (string * json)) :
  faulty (Robust.extract_classes doc).
Proof. unfold Robust.extract_classes. faults; apply faulty_classes_loop. Qed.

Lemma faulty_data_loop (ai aa : json) (n i : nat) (data : list json) :
  faulty (snd (Robust.data_loop ai aa n i data)).
Proof.
  revert i data. induction n as [| n IH]; intros i data; cbn [Robust.data_loop].
  - exact I.
  - faults; apply IH.
Qed.

Lemma faulty_extract_data (doc : list (string * json)) (total : json) :
  faulty (snd (Robust.extract_data doc total)).
Proof. unfold Robust.extract_data. faults; apply faulty_data_loop. Qed.

Lemma faulty_check_required (s : list (string * json)) :
  faulty (snd (Robust.check_required s)).
Proof. unfold Robust.check_required. destruct (filter _ _); exact I. Qed.

Lemma faulty_defaults (l : list json) :
  faulty (snd (Robust.classes_or_default l)) /\ faulty (snd (Robust.bands_or_default l)).
Proof. destruct l; split; exact I. Qed.

(** ** C5: the main record set *)

Lemma Robust_is_main_unmarked (rs : json) :
  unmarked rs = true -> Robust.is_main rs = Ok false.
Proof.
  destruct rs as [ | | | | | d]; try discriminate. unfold unmarked, Robust.is_main.
  simpl. unfold Py.get_or.
  destruct (Py.lookup d "name") as [[ | | | s | | ] |]; try discriminate; simpl.
  - intros H. apply andb_true_iff in H. destruct H as [H1 H2].
    apply negb_true_iff in H1, H2. rewrite H1. simpl. rewrite H2. reflexivity.
  - reflexivity.
Qed.

Lemma Robust_find_main_unmarked (l : list json) :
  forallb unmarked l = true -> Robust.find_main l = Ok JNull.
Proof.
  induction l as [| rs l IH]; simpl; [reflexivity |].
  intros H. apply andb_true_iff in H. destruct H as [H1 H2].
  rewrite (Robust_is_main_unmarked _ H1). simpl. auto.
Qed.

Lemma Robust_select_fallback (first : json) (rest : list json) :
  forallb unmarked (first :: rest) = true ->
  Py.truthy first = true ->
  Robust.select_main_record_set (JArr (first :: rest))
    = ([WarnFirstRecordSet (shown_name first)], Ok first).
Proof.
  intros Hu Ht. unfold Robust.select_main_record_set.
  simpl Py.iter. rewrite bind_lift_Ok, (Robust_find_main_unmarked _ Hu), bind_lift_Ok.
  simpl in Hu. apply andb_true_iff in Hu. destruct Hu as [Hf _].
  destruct first as [ | | | | | d]; try discriminate.
  destruct d as [| kv d]; [discriminate |]. reflexivity.
Qed.

Lemma Plain_find_main_unmarked (l : list json) :
  forallb unmarked l = true -> Plain.find_main l = Ok JNull.
Proof.
  induction l as [| rs l IH]; simpl; [reflexivity |].
  intros H. apply andb_true_iff in H. destruct H as [H1 H2].
  destruct rs as [ | | | | | d]; try discriminate. simpl. unfold Py.get_or.
  unfold unmarked in H1.
  destruct (Py.lookup d "name") as [[ | | | s | | ] |]; try discriminate; simpl; auto.
  apply andb_true_iff in H1. destruct H1 as [H1 _]. apply negb_true_iff in H1.
  rewrite H1. auto.
Qed.

Lemma Plain_select_unmarked (l : list json) :
  forallb unmarked l = true ->
  Plain.select_main_record_set (JArr l) = ([], Raise fatal_no_main_record_set).
Proof.
  intros H. unfold Plain.select_main_record_set. simpl Py.iter.
  rewrite bind_lift_Ok, (Plain_find_main_unmarked _ H), bind_lift_Ok. reflexivity.
Qed.

(** Once the main record set is chosen, only the interpreter can stop the
    assembly of the target. *)
Lemma Robust_remap_after_select (doc : list (string * json)) (l : list line) (main : json) :
  Robust.select_main_record_set (Py.get_or doc "recordSet" (JArr [])) = (l, Ok main) ->
  exists l' r, Robust.remap (JObj doc) = (l ++ l', r) /\ faulty r.
Proof.
  intros Hs. unfold Robust.remap. rewrite Hs. unfold bind at 1.
  match goal with
  | |- context [let (_, _) := ?rest in _] => destruct rest as [l' r] eqn:E
  end.
  exists l', r. split; [reflexivity |].
  change r with (snd (l', r)). rewrite <- E. clear E.
  pose proof faulty_extract_bands. pose proof faulty_extract_classes.
  pose proof faulty_extract_data. pose proof faulty_check_required.
  pose proof (fun l => proj1 (faulty_defaults l)).
  pose proof (fun l => proj2 (faulty_defaults l)).
  faults.
Qed.




(** ** What the extraction loops compute *)

Lemma Robust_bands_loop_spec (items : list (string * json)) (acc bands : list json) :
  Robust.bands_loop items acc = Ok bands ->
  exists new,
    bands = acc ++ new
    /\ Forall2 (fun kv b => top_level_band (fst kv) (snd kv) = Ok b)
               (filter (fun kv => Py.startswith (fst kv) "band") items) new.
Proof.
  revert acc. induction items as [| [k info] rest IH]; intros acc H;
    cbn [Robust.bands_loop] in H.
  - inversion H. exists []. rewrite app_nil_r. split; [reflexivity | constructor].
  - cbn [filter fst]. destruct (Py.startswith k "band").
    + do 3 opeel H. apply IH in H. destruct H as (new & -> & HF).
      eexists (_ :: new). rewrite <- app_assoc. split; [reflexivity |].
      constructor; [| exact HF].
      unfold top_level_band. simpl fst. simpl snd.
      rewrite Hstep. simpl. rewrite Hstep0. simpl. rewrite Hstep1. reflexivity.
    + apply IH in H. exact H.
Qed.

Lemma Robust_extract_bands_spec (doc : list (string * json)) (bands : list json) :
  Robust.extract_bands doc = Ok bands ->
  Forall2 (fun kv b => top_level_band (fst kv) (snd kv) = Ok b)
          (top_level_band_items (JObj doc)) bands.
Proof.
  unfold Robust.extract_bands, top_level_band_items, top_level_config, field, Py.get_or.
  destruct (Py.lookup doc "geocr:sensorCharacteristics") as [sc |];
    [| simpl; intros H; inversion H; constructor].
  destruct sc as [ | b | z | s | l | d]; simpl.
  - intros H; inversion H; constructor.
  - destruct b; simpl; intros H; inversion H; constructor.
  - destruct (z =? 0)%Z; simpl; intros H; inversion H; constructor.
  - destruct s as [| c s]; simpl; intros H; [inversion H; constructor | discriminate].
  - destruct l as [| x l]; simpl; [intros H; inversion H; constructor |].
    destruct x as [ | | | | | first]; simpl; try discriminate. unfold Py.get_or.
    destruct (Py.lookup first "bandConfiguration") as [bc |];
      [| simpl; intros H; inversion H; constructor].
    destruct bc as [ | b | z | s | l' | config]; simpl.
    + intros H; inversion H; constructor.
    + destruct b; simpl; intros H; [discriminate | inversion H; constructor].
    + destruct (z =? 0)%Z; simpl; intros H; [inversion H; constructor | discriminate].
    + destruct s; simpl; intros H; [inversion H; constructor | discriminate].
    + destruct l'; simpl; intros H; [inversion H; constructor | discriminate].
    + destruct config as [| kv config]; [intros H; inversion H; constructor |].
      intros H. apply Robust_bands_loop_spec in H. destruct H as (new & -> & HF).
      exact HF.
  - destruct d; simpl; intros H; [inversion H; constructor | discriminate].
Qed.

Lemma Robust_class_key_rule (count : nat) (class_name k : json) :
  Robust.class_key count class_name = Ok k ->
  k = JStr (class_key_rule count class_name).
Proof.
  unfold Robust.class_key, class_key_rule, recognized.
  destruct class_name as [ | | | s | | ]; try discriminate;
    try (intros H; inversion H; reflexivity).
  unfold Py.get_or, Robust.class_mapping. cbn [Py.lookup].
  destruct ("NotBurned" =? s)%string; [intros H; inversion H; reflexivity |].
  destruct ("BurnScar" =? s)%string; [intros H; inversion H; reflexivity |].
  destruct ("NoData" =? s)%string; intros H; inversion H; reflexivity.
Qed.

Lemma Robust_classes_loop_spec (names acc classes : list json) :
  Robust.classes_loop names acc = Ok classes ->
  classes = acc ++ class_entries_from (length acc) names.
Proof.
  revert acc. induction names as [| x names IH]; intros acc H;
    cbn [Robust.classes_loop] in H.
  - inversion H. simpl. now rewrite app_nil_r.
  - opeel H. apply Robust_class_key_rule in Hstep. subst a.
    apply IH in H. rewrite length_app, Nat.add_1_r in H. rewrite H, <- app_assoc.
    reflexivity.
Qed.

Lemma Robust_extract_classes_spec (doc : list (string * json)) (classes : list json) :
  Robust.extract_classes doc = Ok classes ->
  classes = class_entries_from 0 (ml_task_classes (JObj doc)).
Proof.
  unfold Robust.extract_classes, ml_task_classes, field, Py.get_or.
  destruct (Py.lookup doc "geocr:mlTask") as [ml_task |];
    [| simpl; intros H; inversion H; reflexivity].
  destruct ml_task as [ | b | z | s | l | d]; simpl.
  - intros H; inversion H; reflexivity.
  - destruct b; simpl; intros H; inversion H; reflexivity.
  - destruct (z =? 0)%Z; simpl; intros H; inversion H; reflexivity.
  - destruct (negb (s =? "")%string); simpl; [| intros H; inversion H; reflexivity].
    destruct (Py.substring_of "classes" s); simpl; intros H; inversion H; reflexivity.
  - destruct l as [| x l]; [intros H; inversion H; reflexivity |].
    cbn [obind Py.contains].
    destruct (existsb _ _); simpl; intros H; inversion H; reflexivity.
  - destruct d as [| kv d]; [intros H; inversion H; reflexivity |].
    cbn [obind Py.contains]. unfold Py.has_key, Py.subscript.
    destruct (Py.lookup (kv :: d) "classes") as [cl |];
      [| intros H; inversion H; reflexivity].
    cbn [obind]. destruct cl; try (intros H; inversion H; reflexivity).
    intros H. apply Robust_classes_loop_spec in H. exact H.
Qed.

Lemma Plain_bands_loop_spec (config : list (string * json)) (n i : nat)
    (acc bands : list json) :
  Plain.bands_loop config n i acc = Ok bands ->
  exists new,
    bands = acc ++ new
    /\ Forall2 (fun ib b => numbered_band (fst ib) (snd ib) = Ok b)
               (flat_map (fun j =>
                            match Py.lookup config ("band" ++ Py.str_of_nat j) with
                            | Some band_info => [(j, band_info)]
                            | None => []
                            end) (seq i n))
               new.
Proof.
  revert i acc. induction n as [| n IH]; intros i acc H; cbn [Plain.bands_loop] in H.
  - inversion H. exists []. rewrite app_nil_r. split; [reflexivity | constructor].
  - cbn [seq flat_map]. unfold Py.has_key, Py.subscript in H.
    destruct (Py.lookup config ("band" ++ Py.str_of_nat i)) as [info |].
    + do 4 opeel H. inversion Hstep; subst a; clear Hstep.
      apply IH in H. destruct H as (new & -> & HF).
      eexists (_ :: new). rewrite <- app_assoc. split; [reflexivity |].
      cbn [app]. constructor; [| exact HF].
      unfold numbered_band. cbn [fst snd].
      rewrite Hstep0. simpl. rewrite Hstep1. simpl. rewrite Hstep2. reflexivity.
    + apply IH in H. exact H.
Qed.

Lemma Plain_field_bands_spec (d : list (string * json)) (acc bands : list json) :
  Plain.field_bands d (Py.get_or d "name" (JStr "")) acc = Ok bands ->
  exists new,
    bands = acc ++ new
    /\ Forall2 (fun ib b => numbered_band (fst ib) (snd ib) = Ok b)
               (field_band_items (JObj d)) new.
Proof.
  unfold Plain.field_bands, field_band_items, mentions. intros H. opeel H.
  rewrite Hstep. unfold Py.has_key, Py.subscript in H.
  destruct a.
  2:{ simpl in H. inversion H. exists []. rewrite app_nil_r.
      split; [reflexivity | constructor]. }
  destruct (Py.lookup d "geocr:bandConfiguration") as [bc |]; simpl in H.
  2:{ inversion H. exists []. rewrite app_nil_r. split; [reflexivity | constructor]. }
  destruct bc as [ | | | | | config]; try discriminate.
  simpl in H. opeel H. unfold numbered_band_items.
  unfold Py.int_of in Hstep0.
  destruct (Py.as_int (Py.get_or config "totalBands" (JInt 0))) as [n |];
    [| discriminate].
  inversion Hstep0; subst a. apply Plain_bands_loop_spec in H. exact H.
Qed.

Lemma Plain_field_classes_spec (d : list (string * json)) (acc classes : list json) :
  Plain.field_classes d (Py.get_or d "name" (JStr "")) acc = Ok classes ->
  classes = acc ++ Plain.class_entries (field_class_items (JObj d)).
Proof.
  unfold Plain.field_classes, field_class_items, mentions. intros H. opeel H.
  rewrite Hstep. unfold Py.has_key, Py.subscript in H.
  destruct a.
  2:{ simpl in H. inversion H. simpl. now rewrite app_nil_r. }
  destruct (Py.lookup d "geocr:classValues") as [cv |]; simpl in H.
  2:{ inversion H. simpl. now rewrite app_nil_r. }
  destruct cv as [ | | | | | class_values]; try discriminate.
  simpl in H. inversion H. reflexivity.
Qed.

Lemma Plain_fields_loop_spec (fields b0 c0 bands classes : list json) :
  Plain.fields_loop fields b0 c0 = Ok (bands, classes) ->
  (exists new,
     bands = b0 ++ new
     /\ Forall2 (fun ib b => numbered_band (fst ib) (snd ib) = Ok b)
                (flat_map field_band_items fields) new)
  /\ classes = c0 ++ Plain.class_entries (flat_map field_class_items fields).
Proof.
  revert b0 c0. induction fields as [| fld fields IH]; intros b0 c0 H;
    cbn [Plain.fields_loop] in H.
  - inversion H. split.
    + exists []. rewrite app_nil_r. split; [reflexivity | constructor].
    + simpl. now rewrite app_nil_r.
  - opeel H. destruct fld as [ | | | | | d]; try discriminate.
    simpl in Hstep. inversion Hstep; subst a; clear Hstep.
    do 2 opeel H.
    apply Plain_field_bands_spec in Hstep. destruct Hstep as (nb & -> & HF1).
    apply Plain_field_classes_spec in Hstep0. subst a0.
    apply IH in H. destruct H as [(new & -> & HF2) ->].
    cbn [flat_map]. split.
    + exists (nb ++ new). rewrite app_assoc. split; [reflexivity |].
      apply Forall2_app; assumption.
    + unfold Plain.class_entries. rewrite map_app, app_assoc. reflexivity.
Qed.

Lemma Plain_find_main_spec (l : list json) (main : json) :
  Plain.find_main l = Ok main ->
  Py.truthy main = true ->
  find named_main l = Some main.
Proof.
  induction l as [| rs l IH]; cbn [Plain.find_main find]; intros H Ht.
  - inversion H; subst. discriminate.
  - opeel H. destruct rs as [ | | | | | d]; try discriminate.
    simpl in Hstep. inversion Hstep; subst a; clear Hstep.
    unfold named_main, field, Py.get_or in *.
    destruct (Py.lookup d "name") as [name |].
    + destruct (Py.eq_str name "hls_burn_scars"); [inversion H; reflexivity | auto].
    + simpl in H. auto.
Qed.

(** The bands and classes of the short converter come from the fields of
    the main record set and from nowhere else. *)
Lemma Plain_remap_extraction (source : json) (log : list line) (v : Plain.locals) :
  Plain.remap source = (log, Ok v) ->
  Forall2 (fun ib b => numbered_band (fst ib) (snd ib) = Ok b)
          (record_set_band_items source) (Plain.bands v)
  /\ Plain.classes v = Plain.class_entries (record_set_class_items source).
Proof.
  intros H. apply Plain_remap_Ok in H.
  destruct H as (doc & main & fs & fl & data & tr & va & H).
  destruct H as (-> & Hsel & Hf & Hi & Hloop & _).
  unfold Plain.select_main_record_set in Hsel. do 2 peel Hsel.
  destruct (Py.truthy a0) eqn:Tm; simpl in Hsel; [| discriminate].
  apply ret_Ok in Hsel. destruct Hsel as [-> _].
  apply Plain_find_main_spec in Hstep0; [| exact Tm].
  assert (Ef : main_fields (JObj doc) = fl).
  { unfold main_fields, main_record_set, field, Py.get_or in *.
    destruct (Py.lookup doc "recordSet") as [rss |].
    - unfold elements. rewrite Hstep, Hstep0.
      destruct main as [ | | | | | m]; try discriminate.
      simpl in Hf. unfold Py.get_or in Hf.
      destruct (Py.lookup m "field") as [fields |].
      + inversion Hf; subst fs. rewrite Hi. reflexivity.
      + inversion Hf; subst fs. simpl in Hi. inversion Hi. reflexivity.
    - simpl in Hstep. inversion Hstep; subst a. discriminate. }
  apply Plain_fields_loop_spec in Hloop.
  destruct Hloop as [(new & -> & HF) ->].
  unfold record_set_band_items, record_set_class_items. rewrite Ef. simpl.
  split; [exact HF | reflexivity].
Qed.

(** The bands and classes of the converter with fallbacks come from the
    top-level shapes, or are the defaults. *)
Lemma Robust_remap_extraction (source : json) (log : list line) (v : Robust.locals) :
  Robust.remap source = (log, Ok v) ->
  exists bands0,
    Forall2 (fun kv b => top_level_band (fst kv) (snd kv) = Ok b)
            (top_level_band_items source) bands0
    /\ Robust.bands v = match bands0 with [] => Robust.default_bands | _ => bands0 end
    /\ Robust.classes v =
         match ml_task_classes source with
         | [] => Robust.default_classes
         | names => class_entries_from 0 names
         end.
Proof.
  intros H. apply Robust_remap_Ok in H.
  destruct H as (doc & main & b0 & c0 & l1 & l2 & l3 & l4 & l5 & H).
  destruct H as (-> & _ & Hb & Hc & Hcd & Hbd & _).
  exists b0. split; [apply Robust_extract_bands_spec; exact Hb |].
  apply Robust_extract_classes_spec in Hc. subst c0. split.
  - destruct b0; simpl in Hbd; inversion Hbd; reflexivity.
  - destruct (ml_task_classes (JObj doc)); simpl in Hcd; inversion Hcd; reflexivity.
Qed.

(** ** Both converters: the bands and classes of the target *)

Lemma target_robust_extraction (source : json) (log : list line) (tdml : json) :
  target robust source = (log, Ok tdml) ->
  exists v,
    Robust.remap source = (log, Ok v)
    /\ field tdml "bands" = Some (JArr (Robust.bands v))
    /\ field tdml "classes" = Some (JArr (Robust.classes v)).
Proof.
  intros H. apply target_robust_Ok in H. destruct H as (v & H & ->).
  exists v. split; [exact H |].
  apply Robust_remap_Ok in H.
  destruct H as (doc & main & b0 & c0 & l1 & l2 & l3 & l4 & l5 & H).
  destruct H as (_ & _ & _ & _ & _ & _ & _ & _ & -> & _). split; reflexivity.
Qed.

Lemma target_plain_extraction (source : json) (log : list line) (tdml : json) :
  target plain source = (log, Ok tdml) ->
  exists v,
    Plain.remap source = (log, Ok v)
    /\ field tdml "bands" = Some (JArr (Plain.bands v))
    /\ field tdml "classes" = Some (JArr (Plain.classes v)).
Proof.
  intros H. apply target_plain_Ok in H. destruct H as (v & H & ->).
  exists v. split; [exact H |].
  apply Plain_remap_Ok in H.
  destruct H as (doc & main & fs & fl & data & tr & va & H).
  destruct H as (_ & _ & _ & _ & _ & _ & _ & -> & _). split; reflexivity.
Qed.

(** ** C6: the default bands and classes *)

(** C6, as amended. With fallbacks, a source whose top-level band shape
    yields no band gets exactly the canonical 6-band list (Blue/B02,
    Green/B03, Red/B04, NIR/B8A, SW1/B11, SW2/B12), and a source whose
    [geocr:mlTask.classes] yields no class gets exactly the canonical
    3-class list (NotBurned=0, BurnScar=1, NoData=-1).  The short converter
    substitutes no default: when the record-set fields yield no band, or no
    class, its target has none. *)
Theorem defaults_only_with_fallbacks (c : converter) (w w' : world) (src dst : string)
    (out : list line) (source : json) :
  written w src = Some source ->
  run c w src dst = (w', (out, Ok tt)) ->
  exists tdml bands classes,
    written w' dst = Some tdml
    /\ field tdml "bands" = Some (JArr bands)
    /\ field tdml "classes" = Some (JArr classes)
    /\ (c = robust -> top_level_band_items source = [] ->
        bands = Robust.default_bands /\ band_summary bands = canonical_bands)
    /\ (c = robust -> ml_task_classes source = [] ->
        classes = Robust.default_classes /\ class_summary classes = canonical_classes)
    /\ (c = plain -> record_set_band_items source = [] -> bands = [])
    /\ (c = plain -> record_set_class_items source = [] -> classes = []).
Proof.
  intros Hsrc H. apply run_Ok in H.
  destruct H as (source' & log & tdml & Hs & Ht & Hw & Hout).
  rewrite Hsrc in Hs. inversion Hs; subst source'; clear Hs.
  destruct c.
  - apply target_robust_extraction in Ht. destruct Ht as (v & Hr & Hb & Hc).
    apply Robust_remap_extraction in Hr. destruct Hr as (b0 & HF & Eb & Ec).
    exists tdml, (Robust.bands v), (Robust.classes v).
    do 3 (split; [assumption |]).
    split; [| split; [| split; intros; discriminate]].
    + intros _ E. rewrite E in HF. inversion HF; subst b0. rewrite Eb.
      split; reflexivity.
    + intros _ E. rewrite Ec, E. split; reflexivity.
  - apply target_plain_extraction in Ht. destruct Ht as (v & Hr & Hb & Hc).
    apply Plain_remap_extraction in Hr. destruct Hr as [HF Ec].
    exists tdml, (Plain.bands v), (Plain.classes v).
    do 3 (split; [assumption |]).
    split; [intros; discriminate |]. split; [intros; discriminate |]. split.
    + intros _ E. rewrite E in HF. inversion HF. reflexivity.
    + intros _ E. rewrite Ec, E. reflexivity.
Qed.

Lemma defaults_only_with_fallbacks_witness :
  exists tdml bands classes,
    written (fst (converted robust doc_pairs)) "out.json" = Some tdml
    /\ field tdml "bands" = Some (JArr bands)
    /\ field tdml "classes" = Some (JArr classes)
    /\ (bands = Robust.default_bands /\ band_summary bands = canonical_bands)
    /\ (classes = Robust.default_classes /\ class_summary classes = canonical_classes).
Proof.
  destruct (@defaults_only_with_fallbacks robust (disk doc_pairs)
              (fst (converted robust doc_pairs)) "in.json" "out.json"
              (fst (snd (converted robust doc_pairs))) doc_pairs
              eq_refl)
    as (tdml & bands & classes & Hw & Hb & Hc & Hdb & Hdc & _).
  - vm_compute. reflexivity.
  - exists tdml, bands, classes. do 3 (split; [assumption |]).
    split; [apply Hdb | apply Hdc]; reflexivity.
Defined.

(** C6 as stated fails in the short converter: a source with no band
    and no class configuration anywhere gets empty sequences, not the
    canonical lists. *)
Lemma default_substitution_counterexample :
  top_level_band_items doc_unnamed = []
  /\ record_set_band_items doc_unnamed = []
  /\ ml_task_classes doc_unnamed = []
  /\ record_set_class_items doc_unnamed = []
  /\ exists tdml,
       written (fst (converted plain doc_unnamed)) "out.json"
         = Some tdml
       /\ field tdml "bands" = Some (JArr [])
       /\ field tdml "classes" = Some (JArr [])
       /\ field tdml "bands" <> Some (JArr Robust.default_bands)
       /\ field tdml "classes" <> Some (JArr Robust.default_classes).
Proof.
  repeat split; try reflexivity.
  eexists. split; [vm_compute; reflexivity |].
  repeat split; try reflexivity; vm_compute; discriminate.
Qed.

(** ** C7: the keys of the classes *)

Lemma nth_error_keys_from (count i : nat) (names : list json) :
  nth_error (keys_from count names) i =
    option_map (class_key_rule (count + i)) (nth_error names i).
Proof.
  revert count i. induction names as [| n names IH]; intros count i.
  - destruct i; reflexivity.
  - destruct i as [| i]; simpl.
    + rewrite Nat.add_0_r. reflexivity.
    + rewrite IH. do 2 f_equal. lia.
Qed.

Lemma length_keys_from (count : nat) (names : list json) :
  length (keys_from count names) = length names.
Proof.
  revert count. induction names as [| n names IH]; intros count; simpl;
    [| rewrite IH]; reflexivity.
Qed.

Lemma class_keys_entries (count : nat) (names : list json) :
  class_keys (class_entries_from count names)
    = map (fun k => Some (JStr k)) (keys_from count names).
Proof.
  revert count. induction names as [| n names IH]; intros count; simpl;
    [| unfold class_keys in *; rewrite IH]; reflexivity.
Qed.

Lemma class_values_entries (count : nat) (names : list json) :
  map (fun entry => field entry "value") (class_entries_from count names)
    = map Some names.
Proof.
  revert count. induction names as [| n names IH]; intros count; simpl;
    [| rewrite IH]; reflexivity.
Qed.

Lemma collision_free_keys (names : list json) :
  collision_free names -> NoDup (keys_from 0 names).
Proof.
  intros [H1 H2]. apply NoDup_nth_error. intros i j Hi E.
  rewrite length_keys_from in Hi. rewrite !nth_error_keys_from in E. simpl in E.
  destruct (nth_error names i) as [n |] eqn:Ei; [| apply nth_error_None in Ei; lia].
  destruct (nth_error names j) as [m |] eqn:Ej; [| discriminate].
  simpl in E. inversion E as [E']. clear E. unfold class_key_rule in E'.
  destruct (recognized n) as [kn |] eqn:Rn, (recognized m) as [km |] eqn:Rm.
  - subst km. exact (H1 i j n m kn Ei Ej Rn Rm).
  - exfalso. apply (H2 j i m n Ej Ei Rm). rewrite Rn, E'. reflexivity.
  - exfalso. apply (H2 i j n m Ei Ej Rn). rewrite Rm, E'. reflexivity.
  - apply str_of_nat_inj. exact E'.
Qed.

Lemma NoDup_map_keys (l : list string) :
  NoDup l -> NoDup (map (fun k => Some (JStr k)) l).
Proof.
  induction 1 as [| x l Hx Hl IH]; simpl; constructor; [| exact IH].
  rewrite in_map_iff. intros (y & E & Hy). inversion E; subst. contradiction.
Qed.

(** C7, as amended. With fallbacks, when the class names come from
    [geocr:mlTask.classes] every recognized name gets its key from the
    fixed table (NotBurned "0", BurnScar "1", NoData "-1") and every other
    name the string of the class count at its position; the values are the
    names.  The keys are pairwise distinct whenever no recognized name
    occurs twice and no unrecognized name stands at a position whose number
    is the table key of a name of the list; the default class list, used
    when no name is given, has distinct keys too. *)
Theorem class_keys_follow_key_rule (w w' : world) (src dst : string) (out : list line)
    (source : json) :
  written w src = Some source ->
  run robust w src dst = (w', (out, Ok tt)) ->
  exists tdml classes,
    written w' dst = Some tdml
    /\ field tdml "classes" = Some (JArr classes)
    /\ (ml_task_classes source = [] ->
        classes = Robust.default_classes /\ NoDup (class_keys classes))
    /\ (ml_task_classes source <> [] ->
        class_keys classes
          = map (fun k => Some (JStr k)) (keys_from 0 (ml_task_classes source))
        /\ map (fun entry => field entry "value") classes
             = map Some (ml_task_classes source)
        /\ (collision_free (ml_task_classes source) -> NoDup (class_keys classes))).
Proof.
  intros Hsrc H. apply (run_Ok robust) in H.
  destruct H as (source' & log & tdml & Hs & Ht & Hw & Hout).
  rewrite Hsrc in Hs. inversion Hs; subst source'; clear Hs.
  apply target_robust_extraction in Ht. destruct Ht as (v & Hr & Hb & Hc).
  apply Robust_remap_extraction in Hr. destruct Hr as (b0 & HF & Eb & Ec).
  exists tdml, (Robust.classes v). do 2 (split; [assumption |]). split.
  - intros E. rewrite Ec, E. split; [reflexivity |].
    repeat constructor; simpl; intuition discriminate.
  - intros Hne.
    assert (E : Robust.classes v = class_entries_from 0 (ml_task_classes source)).
    { rewrite Ec. destruct (ml_task_classes source); [contradiction | reflexivity]. }
    rewrite E, class_keys_entries, class_values_entries.
    split; [reflexivity |]. split; [reflexivity |].
    intros Hcf. apply NoDup_map_keys, collision_free_keys. exact Hcf.
Qed.

Lemma doc_classes_collision_free :
  collision_free [JStr "NotBurned"; JStr "BurnScar"; JStr "Water"].
Proof.
  split.
  - intros i j n m k.
    destruct i as [| [| [| i]]]; destruct j as [| [| [| j]]]; simpl;
      intros Hn Hm; inversion Hn; inversion Hm; subst; simpl;
      try reflexivity; try (destruct i; discriminate); try (destruct j; discriminate);
      intros R1 R2; rewrite <- R1 in R2; discriminate.
  - intros i j n m.
    destruct i as [| [| [| i]]]; simpl; intros Hn; inversion Hn; subst; simpl;
      try discriminate; try (destruct i; discriminate).
    destruct j as [| [| [| j]]]; simpl; intros Hm; inversion Hm; subst; simpl;
      try discriminate; try (destruct j; discriminate).
Qed.

Lemma class_keys_follow_key_rule_witness :
  exists tdml classes,
    written (fst (converted robust doc_classes)) "out.json"
      = Some tdml
    /\ field tdml "classes" = Some (JArr classes)
    /\ class_keys classes = [Some (JStr "0"); Some (JStr "1"); Some (JStr "2")]
    /\ map (fun entry => field entry "value") classes
         = [Some (JStr "NotBurned"); Some (JStr "BurnScar"); Some (JStr "Water")]
    /\ NoDup (class_keys classes).
Proof.
  destruct (@class_keys_follow_key_rule (disk doc_classes)
              (fst (converted robust doc_classes)) "in.json" "out.json"
              (fst (snd (converted robust doc_classes))) doc_classes
              eq_refl)
    as (tdml & classes & Hw & Hc & _ & Hn).
  - vm_compute. reflexivity.
  - destruct Hn as (Hk & Hv & Hd); [discriminate |].
    exists tdml, classes. do 2 (split; [assumption |]).
    split; [exact Hk |]. split; [exact Hv |].
    apply Hd. exact doc_classes_collision_free.
Defined.

(** C7 as stated fails: "Water" in second place gets the class count "1",
    the key the table gives "BurnScar"; and a recognized name listed twice
    gets its key twice. *)
Lemma class_keys_distinct_counterexample :
  (exists tdml classes,
     written (fst (converted robust doc_classes_collide)) "out.json" = Some tdml
     /\ field tdml "classes" = Some (JArr classes)
     /\ class_keys classes = [Some (JStr "1"); Some (JStr "1")]
     /\ ~ NoDup (class_keys classes))
  /\ (exists tdml classes,
        written (fst (converted robust doc_classes_repeated)) "out.json" = Some tdml
        /\ field tdml "classes" = Some (JArr classes)
        /\ class_keys classes = [Some (JStr "0"); Some (JStr "0")]
        /\ ~ NoDup (class_keys classes)).
Proof.
  split;
    (do 2 eexists; split; [vm_compute; reflexivity |]; split; [reflexivity |];
     split; [reflexivity |];
     intros H; inversion H as [| x l Hin _]; apply Hin; left; reflexivity).
Qed.

(** ** C8: the empty record-set sequence *)

Lemma Robust_select_empty :
  Robust.select_main_record_set (JArr []) = ([], Raise fatal_no_record_set).
Proof. reflexivity. Qed.



(** ** C9: the band shapes *)

(** C9, as amended. Each converter reads one band shape and there is no
    precedence between two.  With fallbacks the bands come from the
    top-level [geocr:sensorCharacteristics[0].bandConfiguration], one
    descriptor per key starting with "band" in the iteration order of the
    source object, or are the default bands when that yields none; the
    record-set shape is never read.  The short converter's bands come from
    the fields of the record set named "hls_burn_scars" whose name
    contains "image", band1..bandN by numeric index; the top-level shape
    is never read. *)
Theorem one_band_shape_per_converter (c : converter) (w w' : world) (src dst : string)
    (out : list line) (source : json) :
  written w src = Some source ->
  run c w src dst = (w', (out, Ok tt)) ->
  exists tdml bands,
    written w' dst = Some tdml
    /\ field tdml "bands" = Some (JArr bands)
    /\ (c = robust ->
        exists top,
          Forall2 (fun kv b => top_level_band (fst kv) (snd kv) = Ok b)
                  (top_level_band_items source) top
          /\ bands = match top with [] => Robust.default_bands | _ => top end)
    /\ (c = plain ->
        Forall2 (fun ib b => numbered_band (fst ib) (snd ib) = Ok b)
                (record_set_band_items source) bands).
Proof.
  intros Hsrc H. apply run_Ok in H.
  destruct H as (source' & log & tdml & Hs & Ht & Hw & Hout).
  rewrite Hsrc in Hs. inversion Hs; subst source'; clear Hs.
  destruct c.
  - apply target_robust_extraction in Ht. destruct Ht as (v & Hr & Hb & Hc).
    apply Robust_remap_extraction in Hr. destruct Hr as (b0 & HF & Eb & Ec).
    exists tdml, (Robust.bands v). do 2 (split; [assumption |]).
    split; [| intros; discriminate]. intros _. exists b0. split; assumption.
  - apply target_plain_extraction in Ht. destruct Ht as (v & Hr & Hb & Hc).
    apply Plain_remap_extraction in Hr. destruct Hr as [HF Ec].
    exists tdml, (Plain.bands v). do 2 (split; [assumption |]).
    split; [intros; discriminate |]. intros _. exact HF.
Qed.

Lemma one_band_shape_per_converter_witness :
  exists tdml bands,
    written (fst (converted plain doc_two_shapes)) "out.json"
      = Some tdml
    /\ field tdml "bands" = Some (JArr bands)
    /\ Forall2 (fun ib b => numbered_band (fst ib) (snd ib) = Ok b)
               (record_set_band_items doc_two_shapes) bands.
Proof.
  destruct (@one_band_shape_per_converter plain (disk doc_two_shapes)
              (fst (converted plain doc_two_shapes)) "in.json"
              "out.json"
              (fst (snd (converted plain doc_two_shapes)))
              doc_two_shapes eq_refl)
    as (tdml & bands & Hw & Hb & _ & Hp).
  - vm_compute. reflexivity.
  - exists tdml, bands. do 2 (split; [assumption |]). apply Hp. reflexivity.
Defined.

(** C9 as stated fails on both sides: for a source with both shapes
    the short converter emits the record-set band, not the top-level one,
    and for a source with the record-set shape only the converter with
    fallbacks emits the default bands, not the record-set band. *)
Lemma band_precedence_counterexample :
  (top_level_band_items doc_two_shapes <> []
   /\ record_set_band_items doc_two_shapes <> []
   /\ exists tdml bands,
        written (fst (converted plain doc_two_shapes)) "out.json"
          = Some tdml
        /\ field tdml "bands" = Some (JArr bands)
        /\ band_summary bands = [(Some (JStr "Red"), Some (JStr "B04"))]
        /\ exists top,
             Forall2 (fun kv b => top_level_band (fst kv) (snd kv) = Ok b)
                     (top_level_band_items doc_two_shapes) top
             /\ band_summary top = [(Some (JStr "Blue"), Some (JStr "B02"))])
  /\ (top_level_band_items doc_record_set_shape = []
      /\ record_set_band_items doc_record_set_shape <> []
      /\ exists tdml bands,
           written (fst (converted robust doc_record_set_shape))
                   "out.json" = Some tdml
           /\ field tdml "bands" = Some (JArr bands)
           /\ band_summary bands = canonical_bands).
Proof.
  split.
  - split; [vm_compute; discriminate |]. split; [vm_compute; discriminate |].
    do 2 eexists. split; [vm_compute; reflexivity |]. split; [reflexivity |].
    split; [reflexivity |].
    exists [Robust.default_band "Blue" "490nm" "B02"]. split; [| reflexivity].
    vm_compute. constructor; [reflexivity | constructor].
  - split; [reflexivity |]. split; [vm_compute; discriminate |].
    do 2 eexists. split; [vm_compute; reflexivity |]. split; reflexivity.
Qed.

(** ** C10: name and description *)

(** C10. In both converters the default of [name] is used only when the key
    is absent: the target carries the source value whenever the key is
    present, so a source with ["name": ""] yields the name [""], while
    [description] becomes "No description provided." whenever it is absent
    or empty. *)
Theorem name_default_only_when_absent (c : converter) (w w' : world)
    (src dst : string) (out : list line) (source : json) :
  written w src = Some source ->
  run c w src dst = (w', (out, Ok tt)) ->
  exists tdml,
    written w' dst = Some tdml
    /\ field tdml "name" = Some (name_rule c source)
    /\ field tdml "description" = Some (description_rule source)
    /\ (field source "name" = Some (JStr "") -> field tdml "name" = Some (JStr "")).
Proof.
  intros Hsrc H. apply run_Ok in H.
  destruct H as (source' & log & tdml & Hs & Ht & Hw & Hout).
  rewrite Hsrc in Hs. inversion Hs; subst source'; clear Hs.
  exists tdml. split; [exact Hw |].
  assert (Hn : field tdml "name" = Some (name_rule c source)
               /\ field tdml "description" = Some (description_rule source)).
  { destruct c.
    - apply target_robust_Ok in Ht. destruct Ht as (v & H & ->).
      apply Robust_remap_Ok in H.
      destruct H as (doc & main & b0 & c0 & l1 & l2 & l3 & l4 & l5 & H).
      destruct H as (-> & _ & _ & _ & _ & _ & _ & _ & -> & _).
      unfold name_rule, description_rule, field. simpl.
      unfold Robust.name_of, Robust.description_of, Py.get_or.
      destruct (Py.lookup doc "name"), (Py.lookup doc "description"); split; reflexivity.
    - apply target_plain_Ok in Ht. destruct Ht as (v & H & ->).
      apply Plain_remap_Ok in H.
      destruct H as (doc & main & fs & fl & data & tr & va & H).
      destruct H as (-> & _ & _ & _ & _ & _ & _ & -> & _).
      unfold name_rule, description_rule, field. simpl.
      unfold Plain.name_of, Plain.description_of, Py.get_or.
      destruct (Py.lookup doc "name"), (Py.lookup doc "description"); split; reflexivity. }
  destruct Hn as [Hn Hd]. repeat split; [exact Hn | exact Hd |].
  intros He. rewrite Hn. unfold name_rule. rewrite He. reflexivity.
Qed.

Lemma name_default_only_when_absent_witness :
  exists tdml,
    written (fst (converted robust doc_unnamed)) "out.json"
      = Some tdml
    /\ field tdml "name" = Some (name_rule robust doc_unnamed)
    /\ field tdml "description" = Some (description_rule doc_unnamed)
    /\ (field doc_unnamed "name" = Some (JStr "") -> field tdml "name" = Some (JStr "")).
Proof.
  apply (@name_default_only_when_absent robust (disk doc_unnamed) _ "in.json" "out.json"
           (fst (snd (converted robust doc_unnamed))) doc_unnamed).
  - reflexivity.
  - vm_compute. reflexivity.
Defined.
